(** * Polychromatic Controller: the request router of [pylib/controller.py]

    A shallow embedding of [PolychromaticController]: the request table of
    [parse_request], the seven handlers, and the helpers [run_function] and
    [_internal_error].  The controller is glue between three collaborators
    (the OpenRazer backend, the web view and the debug logger), so the model
    records every call that crosses one of these boundaries as an [event] and
    threads Python exceptions through a small error-and-output monad. *)

From Stdlib Require Import String Ascii ZArith List Bool Lia DecimalString.
Import ListNotations.

Local Open Scope string_scope.
Local Open Scope Z_scope.
Local Open Scope list_scope.

(** ** Python values

    The payloads arrive as decoded JSON and the backend answers with JSON-like
    data or a sentinel, so values are [None], booleans, integers, strings,
    lists and string-keyed dictionaries (insertion ordered, first binding of a
    key wins).  Floats are outside the model. *)

#[local] Set Warnings "-register-all".

Inductive pyval : Type :=
| PNone
| PBool (b : bool)
| PInt (z : Z)
| PStr (s : string)
| PList (items : list pyval)
| PDict (entries : list (string * pyval)).

(** The constants the controller compares against with [==]; [KTypeStr] is the
    type object [str] itself (used by [_open_device]). *)
Inductive pyconst : Type :=
| KNone
| KBool (b : bool)
| KInt (z : Z)
| KStr (s : string)
| KTypeStr.

Definition Z_of_bool (b : bool) : Z := if b then 1 else 0.

(** [v == k].  [bool] is a subclass of [int], so [False == 0] and [True == 1];
    [None] equals only itself; no JSON-like value equals a type object. *)
Definition py_eq_const (v : pyval) (k : pyconst) : bool :=
  match k, v with
  | KNone, PNone => true
  | KBool b, PBool b' => Bool.eqb b' b
  | KBool b, PInt z => z =? Z_of_bool b
  | KInt n, PInt z => z =? n
  | KInt n, PBool b' => Z_of_bool b' =? n
  | KStr s, PStr s' => String.eqb s' s
  | _, _ => false
  end.

(** [type(v) == str] *)
Definition type_is_str (v : pyval) : bool :=
  match v with PStr _ => true | _ => false end.

(** ** Exceptions

    [exn] stands for instances of Python's [Exception] class: the errors of the
    built-in operations the handlers use, and [Raised] for anything an external
    collaborator throws. *)
Inductive exn : Type :=
| KeyError (key : pyval)
| IndexError
| TypeError
| ValueError
| Raised (name message : string).

Inductive result (A : Type) : Type :=
| Ok (a : A)
| Raise (e : exn).
Arguments Ok {A} a.
Arguments Raise {A} e.

(** ** Built-in operations *)

Fixpoint dict_get (k : string) (entries : list (string * pyval)) : option pyval :=
  match entries with
  | [] => None
  | (k', v) :: rest => if String.eqb k' k then Some v else dict_get k rest
  end.

(** Sequence indexing with Python's negative indices. *)
Definition seq_index {A : Type} (l : list A) (i : Z) : option A :=
  let n := Z.of_nat (length l) in
  let j := if i <? 0 then i + n else i in
  if (0 <=? j) && (j <? n) then nth_error l (Z.to_nat j) else None.

Definition chars (s : string) : list pyval :=
  map (fun c => PStr (String c EmptyString)) (list_ascii_of_string s).

Definition index_result (o : option pyval) : result pyval :=
  match o with Some v => Ok v | None => Raise IndexError end.

(** [container[key]] *)
Definition py_getitem (container key : pyval) : result pyval :=
  match container, key with
  | PDict entries, PStr k =>
      match dict_get k entries with
      | Some v => Ok v
      | None => Raise (KeyError key)
      end
  | PDict _, (PList _ | PDict _) => Raise TypeError      (* unhashable key *)
  | PDict _, _ => Raise (KeyError key)
  | PList items, PInt i => index_result (seq_index items i)
  | PList items, PBool b => index_result (seq_index items (Z_of_bool b))
  | PStr s, PInt i => index_result (seq_index (chars s) i)
  | PStr s, PBool b => index_result (seq_index (chars s) (Z_of_bool b))
  | _, _ => Raise TypeError
  end.

(** The items a [for] loop visits. *)
Definition py_iter (v : pyval) : result (list pyval) :=
  match v with
  | PList items => Ok items
  | PDict entries => Ok (map (fun kv => PStr (fst kv)) entries)
  | PStr s => Ok (chars s)
  | _ => Raise TypeError
  end.

(** [s.replace("\n", "<br>")] *)
Definition LF : ascii := "010"%char.

Fixpoint replace_newlines (s : string) : string :=
  match s with
  | EmptyString => EmptyString
  | String c rest =>
      if Ascii.eqb c LF then "<br>" ++ replace_newlines rest
      else String c (replace_newlines rest)
  end.

(** ** The collaborators' calls *)

(** Levels of [common.Debugging]. *)
Module dbg.
Inductive level : Type := error | warning | action | success | debug.
End dbg.

(** Entry points of [backends/openrazer.py], with their arguments. *)
Module openrazer.
Inductive call : Type :=
| get_device_list
| get_device (uid : pyval)
| set_device_state (uid request zone colour_hex params : pyval)
| set_device_colours (uid zone colour_hex : pyval)
| debug_matrix (uid row column : pyval)
| troubleshoot.

Definition is_set_device_state (c : call) : bool :=
  match c with set_device_state _ _ _ _ _ => true | _ => false end.

End openrazer.

(** Everything the controller does to the outside world, in program order. *)
Inductive event : Type :=
| dbg_stdout (msg : string) (lvl : dbg.level) (verbosity : option Z)
| run_js (script : string)
| send_view_variable (name : string) (value : pyval)
| backend (c : openrazer.call)
| webbrowser_open (url : string).

(** ** The environment

    The parts of the program that live outside [controller.py]. *)
Class Environment : Type := {
  (** The daemon behind [backends/openrazer.py]: each call answers with a
      value or raises, and may change the daemon's state. *)
  daemon : Type;
  openrazer_run : openrazer.call -> daemon -> result pyval * daemon;
  (** [locales.LOCALES], read at the keys the controller uses. *)
  LOCALES : string -> string;
  (** [common.get_exception_as_string] *)
  get_exception_as_string : exn -> string;
  (** Python built-ins left abstract: [repr] of a value, [int] of a string
      ([None] when it is not an integer literal) and [json.dumps]. *)
  repr : pyval -> string;
  int_of_str : string -> option Z;
  json_dumps : pyval -> string
}.

(** ** Computations

    A computation starts from a daemon state and ends with a value or an
    exception, the events it produced and the daemon state it left. *)

Record outcome {env : Environment} (A : Type) : Type := Outcome {
  returned : result A;
  emitted : list event;
  final : daemon
}.
Arguments Outcome {env A} _ _ _.
Arguments returned {env A} _.
Arguments emitted {env A} _.
Arguments final {env A} _.

Section Computations.

Context {env : Environment}.

Definition M (A : Type) : Type := daemon -> outcome A.

Definition ret {A : Type} (a : A) : M A := fun d => Outcome (Ok a) [] d.

Definition raise {A : Type} (e : exn) : M A := fun d => Outcome (Raise e) [] d.

Definition bind {A B : Type} (m : M A) (k : A -> M B) : M B :=
  fun d =>
    let o := m d in
    match returned o with
    | Ok a =>
        let o' := k a (final o) in
        Outcome (returned o') (emitted o ++ emitted o') (final o')
    | Raise e => Outcome (Raise e) (emitted o) (final o)
    end.

(** [try: body] followed by [except Exception as e: handler e] (a bare
    [except:] catches the same exceptions of the model). *)
Definition try_except {A : Type} (body : M A) (handler : exn -> M A) : M A :=
  fun d =>
    let o := body d in
    match returned o with
    | Ok a => o
    | Raise e =>
        let o' := handler e (final o) in
        Outcome (returned o') (emitted o ++ emitted o') (final o')
    end.

(** The result of a built-in operation, raised if it is an exception. *)
Definition lift {A : Type} (r : result A) : M A :=
  fun d => Outcome r [] d.

Definition emit (e : event) : M unit := fun d => Outcome (Ok tt) [e] d.

(** A call into the backend: recorded, then answered by the daemon. *)
Definition openrazer (c : openrazer.call) : M pyval :=
  fun d => let (r, d') := openrazer_run c d in Outcome r [backend c] d'.

End Computations.

Declare Scope py_scope.
Delimit Scope py_scope with py.
Notation "x <- m ;; k" := (bind m (fun x => k))
  (at level 100, m at next level, right associativity) : py_scope.
Notation "m ;;; k" := (bind m (fun _ => k))
  (at level 100, right associativity) : py_scope.
Local Open Scope py_scope.

(** ** The controller *)

Section Controller.

Context {env : Environment}.

(** [for x in xs: body x] over the items already taken from the iterable. *)
Fixpoint for_each (xs : list pyval) (body : pyval -> M unit) : M unit :=
  match xs with
  | [] => ret tt
  | x :: rest => body x ;;; for_each rest body
  end.

(** [str(v)]; the positional fields of [str.format] render the same way. *)
Definition py_str (v : pyval) : string :=
  match v with PStr s => s | _ => repr v end.

(** [int(v)] *)
Definition py_int (v : pyval) : result pyval :=
  match v with
  | PInt z => Ok (PInt z)
  | PBool b => Ok (PInt (Z_of_bool b))
  | PStr s =>
      match int_of_str s with
      | Some z => Ok (PInt z)
      | None => Raise ValueError
      end
  | _ => Raise TypeError
  end.

(** *** Helpers of the class *)

(** [dbg.stdout(msg, level[, verbosity])] *)
Definition stdout (msg : string) (lvl : dbg.level) (verbosity : option Z) : M unit :=
  emit (dbg_stdout msg lvl verbosity).

(** [run_function(function, data={})]: one [webview.run_js] call. *)
Definition run_function_js (function data : pyval) : string :=
  py_str function ++ "(" ++ json_dumps data ++ ");".

Definition run_function (function data : pyval) : M unit :=
  emit (run_js (run_function_js function data)).

(** The default of [run_function]'s [data] parameter, [{}]. *)
Definition no_data : pyval := PDict [].

(** [_internal_error(title, reason, style)]: one [webview.run_js] call. *)
Definition open_dialog_js (title reason style : string) : string :=
  "open_dialog(`" ++ title ++ "`, `" ++ replace_newlines reason ++ "`, '"
    ++ style ++ "', [['OK', '']], '40em', '80em')".

Definition _internal_error (title reason style : string) : M unit :=
  emit (run_js (open_dialog_js title reason style)).

(** *** The handlers *)

Definition _update_device_list (data : pyval) : M unit :=
  devices <- openrazer openrazer.get_device_list ;;
  emit (send_view_variable "CACHE_DEVICES" devices) ;;;
  callback <- lift (py_getitem data (PStr "callback")) ;;
  run_function callback no_data.

Definition _open_device (data : pyval) : M unit :=
  uid <- lift (py_getitem data (PStr "uid")) ;;
  data <- openrazer (openrazer.get_device uid) ;;
  if py_eq_const data KNone then
    run_function (PStr "open_device_overview") no_data
  else if py_eq_const data KTypeStr then
    run_function (PStr "_open_device_error")
      (PDict [("code", PInt (-2)); ("exception", data)])
  else
    run_function (PStr "_open_device") data.

(** Default values for effects. *)
Definition effect_params : pyval :=
  PDict [("spectrum", PNone);
         ("wave", PInt 1);
         ("reactive", PInt 2);
         ("breath_single", PNone);
         ("static", PNone)].

(** The body of the inner loop of [_apply_to_all], for one zone. *)
Definition apply_to_zone (request_type request_value device zone : pyval) : M unit :=
  if py_eq_const request_type (KStr "effect") then
    param <- lift (py_getitem effect_params request_value) ;;
    uid <- lift (py_getitem device (PStr "uid")) ;;
    openrazer (openrazer.set_device_state uid request_value zone PNone (PList [param])) ;;;
    ret tt
  else if py_eq_const request_type (KStr "brightness") then
    uid <- lift (py_getitem device (PStr "uid")) ;;
    openrazer (openrazer.set_device_state uid (PStr "brightness") zone PNone
                 (PList [request_value])) ;;;
    ret tt
  else if py_eq_const request_type (KStr "colour") then
    uid <- lift (py_getitem device (PStr "uid")) ;;
    openrazer (openrazer.set_device_colours uid zone (PList [request_value])) ;;;
    ret tt
  else
    ret tt.

(** The body of the outer loop of [_apply_to_all], for one device. *)
Definition apply_to_device (request_type request_value device : pyval) : M unit :=
  available <- lift (py_getitem device (PStr "available")) ;;
  if py_eq_const available (KBool false) then
    ret tt                                             (* continue *)
  else
    zones <- lift (py_getitem device (PStr "zones")) ;;
    zones <- lift (py_iter zones) ;;
    for_each zones (apply_to_zone request_type request_value device).

Definition _apply_to_all (data : pyval) : M unit :=
  request_type <- lift (py_getitem data (PStr "type")) ;;
  request_value <- lift (py_getitem data (PStr "value")) ;;
  devices <- openrazer openrazer.get_device_list ;;
  devices <- lift (py_iter devices) ;;
  for_each devices (apply_to_device request_type request_value).

(** Lines 243-260 of [_set_device_state]: what is done with the value the
    backend returned. *)
Definition set_device_state_result (request : pyval) : M unit :=
  if py_eq_const request KNone then
    stdout "Device not found in backend" dbg.warning None ;;;
    _internal_error (LOCALES "error_device_gone_title")
                    (LOCALES "error_device_gone_text") "warning"
  else if py_eq_const request (KBool false) then
    stdout "Invalid request." dbg.warning None ;;;
    _internal_error (LOCALES "error_bad_request_title")
                    (LOCALES "error_bad_request_text") "warning"
  else if type_is_str request then
    _internal_error (LOCALES "error_backend_title")
                    (LOCALES "error_backend_text" ++ "<pre>" ++ py_str request ++ "</pre>")
                    "serious" ;;;
    stdout (py_str request) dbg.error None
  else if py_eq_const request (KBool true) then
    stdout "Successfully executed request" dbg.success (Some 1)
  else
    ret tt.

(** The log line that announces a state request. *)
Definition processing_message (uid backend backend_request : pyval) : string :=
  "Processing request '" ++ py_str backend_request ++ "' for device "
    ++ py_str uid ++ " in backend '" ++ py_str backend ++ "'...".

Definition _set_device_state (data : pyval) : M unit :=
  uid <- lift (py_getitem data (PStr "uid")) ;;
  uid <- lift (py_int uid) ;;
  backend <- lift (py_getitem data (PStr "backend")) ;;
  backend_request <- lift (py_getitem data (PStr "backend_request")) ;;
  zone <- lift (py_getitem data (PStr "zone")) ;;
  colour_hex <- lift (py_getitem data (PStr "colour_hex")) ;;
  params <- lift (py_getitem data (PStr "params")) ;;
  stdout (processing_message uid backend backend_request) dbg.action (Some 1) ;;;
  request <- openrazer (openrazer.set_device_state uid backend_request zone colour_hex params) ;;
  set_device_state_result request.

(** Lines 280-291 of [_debug_matrix]: what is done with the value the backend
    returned. *)
Definition debug_matrix_result (row column request : pyval) : M unit :=
  if py_eq_const request KNone then
    _internal_error (LOCALES "error_device_gone_title")
                    (LOCALES "error_device_gone_text") "warning"
  else if type_is_str request then
    _internal_error (LOCALES "error_backend_title")
                    (LOCALES "error_backend_text" ++ "<pre>" ++ py_str request ++ "</pre>")
                    "serious" ;;;
    stdout (py_str request) dbg.error None
  else if py_eq_const request (KBool true) then
    stdout ("OK: [" ++ py_str row ++ "," ++ py_str column ++ "]") dbg.success (Some 1)
  else
    ret tt.

Definition _debug_matrix (data : pyval) : M unit :=
  uid <- lift (py_getitem data (PStr "uid")) ;;
  uid <- lift (py_int uid) ;;
  backend <- lift (py_getitem data (PStr "backend")) ;;
  position <- lift (py_getitem data (PStr "position")) ;;
  row <- lift (py_getitem position (PInt 0)) ;;
  position <- lift (py_getitem data (PStr "position")) ;;
  column <- lift (py_getitem position (PInt 1)) ;;
  irow <- lift (py_int row) ;;
  icolumn <- lift (py_int column) ;;
  request <- openrazer (openrazer.debug_matrix uid irow icolumn) ;;
  debug_matrix_result row column request.

Definition _open_help (data : pyval) : M unit :=
  emit (webbrowser_open "https://polychromatic.app/docs").

Definition _troubleshoot_openrazer (data : pyval) : M unit :=
  try_except
    (stdout "Running troubleshooter for OpenRazer..." dbg.warning (Some 1) ;;;
     results <- openrazer openrazer.troubleshoot ;;
     run_function (PStr "_show_troubleshoot_results") results ;;;
     stdout "Troubleshooting finished." dbg.success (Some 1))
    (fun _ =>
     stdout "Troubleshooting encountered an exception." dbg.error (Some 1) ;;;
     _internal_error (LOCALES "troubleshoot") (LOCALES "troubleshoot_cannot_run") "serious").

(** *** The router *)

(** The dictionary [requests] built by [parse_request]. *)
Definition requests : list (string * (pyval -> M unit)) :=
  [("update_device_list", _update_device_list);
   ("open_device", _open_device);
   ("apply_to_all", _apply_to_all);
   ("set_device_state", _set_device_state);
   ("debug_matrix", _debug_matrix);
   ("open_help", _open_help);
   ("troubleshoot_openrazer", _troubleshoot_openrazer)].

Fixpoint handler_get (request : string) (table : list (string * (pyval -> M unit)))
  : option (pyval -> M unit) :=
  match table with
  | [] => None
  | (name, handler) :: rest =>
      if String.eqb name request then Some handler else handler_get request rest
  end.

(** [requests[request](data)] *)
Definition call_handler (table : list (string * (pyval -> M unit)))
    (request : string) (data : pyval) : M unit :=
  match handler_get request table with
  | Some handler => handler data
  | None => raise (KeyError (PStr request))
  end.

Definition is_KeyError (e : exn) : bool :=
  match e with KeyError _ => true | _ => false end.

(** [parse_request(request, data)].  The first [try] encloses only the
    dictionary display; the second encloses the lookup and the call.  The
    result is the value the method returns ([False] or [None]). *)
Definition parse_request (request : string) (data : pyval) : M pyval :=
  r <- try_except
         (ret (Some requests))
         (fun e =>
          if is_KeyError e then
            stdout ("Unknown Request: " ++ request ++ " with data: " ++ py_str data)
                   dbg.error None ;;;
            _internal_error "Internal Error"
                            ("<code>" ++ request ++ "</code> is not implemented.")
                            "serious" ;;;
            ret None
          else raise e) ;;
  match r with
  | None => ret (PBool false)
  | Some requests =>
      try_except
        (call_handler requests request data)
        (fun e =>
         stdout ("Failed to execute request: " ++ request ++ " with data: " ++ py_str data)
                dbg.error None ;;;
         stdout (get_exception_as_string e) dbg.error None ;;;
         let traceback := get_exception_as_string e in
         _internal_error (LOCALES "error_generic_title")
                         (LOCALES "error_generic_text" ++ "<br><br><code>"
                            ++ traceback ++ "</code>")
                         "serious") ;;;
      ret PNone
  end.

End Controller.

(** ** Vocabulary of the statements *)

(** [needle in hay] on strings. *)
Fixpoint contains (needle hay : string) : bool :=
  String.prefix needle hay
  || match hay with
     | EmptyString => false
     | String _ rest => contains needle rest
     end.

(** The scripts handed to the web view among the events, in order. *)
Definition scripts (evs : list event) : list string :=
  flat_map (fun e => match e with run_js js => [js] | _ => [] end) evs.

(** The debug messages among the events, in order. *)
Definition log_lines (evs : list event) : list string :=
  flat_map (fun e => match e with dbg_stdout msg _ _ => [msg] | _ => [] end) evs.

(** A device entry of the list [get_device_list] returns, as the fan-out of
    [_apply_to_all] reads it. *)
Definition device_available (device : pyval) : option bool :=
  match py_getitem device (PStr "available") with
  | Ok (PBool b) => Some b
  | _ => None
  end.

Definition device_uid (device : pyval) : option pyval :=
  match py_getitem device (PStr "uid") with Ok uid => Some uid | Raise _ => None end.

Definition device_zones (device : pyval) : option (list pyval) :=
  match py_getitem device (PStr "zones") with
  | Ok zones => match py_iter zones with Ok zs => Some zs | Raise _ => None end
  | Raise _ => None
  end.

(** A well-formed entry carries a boolean [available] flag and, when it is
    available, a [uid] and an iterable of zones. *)
Definition well_formed_device (device : pyval) : bool :=
  match device_available device with
  | Some false => true
  | Some true =>
      match device_uid device, device_zones device with
      | Some _, Some _ => true
      | _, _ => false
      end
  | None => false
  end.

(** What the walk of [_apply_to_all] reads whatever the request type: an
    entry can be walked when it has an [available] entry and, unless that
    compares equal to [False], a [zones] entry that can be iterated. *)
Definition walkable (device : pyval) : bool :=
  match py_getitem device (PStr "available") with
  | Ok available =>
      if py_eq_const available (KBool false) then true
      else match py_getitem device (PStr "zones") with
           | Ok zones => match py_iter zones with Ok _ => true | Raise _ => false end
           | Raise _ => false
           end
  | Raise _ => false
  end.

(** The value [get_device_list] returned can be iterated and each of its
    items can be walked. *)
Definition walkable_list (devices : pyval) : bool :=
  match py_iter devices with
  | Ok items => forallb walkable items
  | Raise _ => false
  end.

(** The zones the fan-out visits in a device: all of them when its flag is
    true, none when it is false. *)
Definition zones_of (device : pyval) : list pyval :=
  match device_available device, device_zones device with
  | Some true, Some zones => zones
  | _, _ => []
  end.

Definition uid_of (device : pyval) : pyval :=
  match device_uid device with Some uid => uid | None => PNone end.

(** One call [mk uid zone] per visited zone of each device, in list order. *)
Definition calls_for_device (mk : pyval -> pyval -> openrazer.call) (device : pyval)
  : list openrazer.call :=
  map (mk (uid_of device)) (zones_of device).

Definition calls_for_devices (mk : pyval -> pyval -> openrazer.call) (devices : list pyval)
  : list openrazer.call :=
  flat_map (calls_for_device mk) devices.

(** [True] when the string has a line feed. *)
Fixpoint has_newline (s : string) : bool :=
  match s with
  | EmptyString => false
  | String c rest => Ascii.eqb c LF || has_newline rest
  end.

Section Payloads.

Context {env : Environment}.

(** The payload of [set_device_state] carries these fields ([uid] after the
    coercion with [int]). *)
Definition state_request_of (data uid backend backend_request zone colour_hex params : pyval)
  : Prop :=
  (exists raw, py_getitem data (PStr "uid") = Ok raw /\ py_int raw = Ok uid)
  /\ py_getitem data (PStr "backend") = Ok backend
  /\ py_getitem data (PStr "backend_request") = Ok backend_request
  /\ py_getitem data (PStr "zone") = Ok zone
  /\ py_getitem data (PStr "colour_hex") = Ok colour_hex
  /\ py_getitem data (PStr "params") = Ok params.

(** The payload of [debug_matrix] carries these fields: [row] and [column] as
    sent, [irow] and [icolumn] after the coercion with [int]. *)
Definition matrix_request_of (data uid row column irow icolumn : pyval) : Prop :=
  (exists raw, py_getitem data (PStr "uid") = Ok raw /\ py_int raw = Ok uid)
  /\ (exists backend, py_getitem data (PStr "backend") = Ok backend)
  /\ (exists position,
        py_getitem data (PStr "position") = Ok position
        /\ py_getitem position (PInt 0) = Ok row
        /\ py_getitem position (PInt 1) = Ok column)
  /\ py_int row = Ok irow
  /\ py_int column = Ok icolumn.

(** The backend answers every call selected by [p] without raising. *)
Definition never_raises (p : openrazer.call -> bool) : Prop :=
  forall c d, p c = true -> exists v d', openrazer_run c d = (Ok v, d').

(** The dialogs of the router and of the result classification. *)
Definition generic_dialog (traceback : string) : string :=
  open_dialog_js (LOCALES "error_generic_title")
                 (LOCALES "error_generic_text" ++ "<br><br><code>" ++ traceback ++ "</code>")
                 "serious".

Definition not_implemented_dialog (request : string) : string :=
  open_dialog_js "Internal Error" ("<code>" ++ request ++ "</code> is not implemented.")
                 "serious".

Definition device_gone_dialog : string :=
  open_dialog_js (LOCALES "error_device_gone_title") (LOCALES "error_device_gone_text")
                 "warning".

Definition bad_request_dialog : string :=
  open_dialog_js (LOCALES "error_bad_request_title") (LOCALES "error_bad_request_text")
                 "warning".

Definition backend_dialog (message : string) : string :=
  open_dialog_js (LOCALES "error_backend_title")
                 (LOCALES "error_backend_text" ++ "<pre>" ++ message ++ "</pre>")
                 "serious".

(** The two log lines the router writes when a handler fails. *)
Definition failure_log (request : string) (data : pyval) (e : exn) : list event :=
  [dbg_stdout ("Failed to execute request: " ++ request ++ " with data: " ++ py_str data)
              dbg.error None;
   dbg_stdout (get_exception_as_string e) dbg.error None].

End Payloads.

(** ** A concrete environment

    Used to run the controller on explicit inputs: the daemon is a script
    that answers each call from a table, the locale table echoes its key, and
    the built-ins render the values that occur in the examples. *)
Module Sample.

Definition decimal (z : Z) : string := NilZero.string_of_int (Z.to_int z).

Definition join (sep : string) (parts : list string) : string :=
  String.concat sep parts.

Fixpoint repr (v : pyval) : string :=
  match v with
  | PNone => "None"
  | PBool true => "True"
  | PBool false => "False"
  | PInt z => decimal z
  | PStr s => "'" ++ s ++ "'"
  | PList items => "[" ++ join ", " (map repr items) ++ "]"
  | PDict entries =>
      "{" ++ join ", " (map (fun kv => ("'" ++ fst kv ++ "': " ++ repr (snd kv))%string) entries)
        ++ "}"
  end.

(** The double quote of JSON strings. *)
Definition quote : string := String "034"%char EmptyString.

Fixpoint json_dumps (v : pyval) : string :=
  match v with
  | PNone => "null"
  | PBool true => "true"
  | PBool false => "false"
  | PInt z => decimal z
  | PStr s => quote ++ s ++ quote
  | PList items => "[" ++ join ", " (map json_dumps items) ++ "]"
  | PDict entries =>
      "{" ++ join ", "
               (map (fun kv => (quote ++ fst kv ++ quote ++ ": " ++ json_dumps (snd kv))%string)
                    entries)
        ++ "}"
  end.

Definition int_of_str (s : string) : option Z :=
  option_map Z.of_int (NilZero.int_of_string s).

Definition get_exception_as_string (e : exn) : string :=
  match e with
  | KeyError key => "KeyError: " ++ repr key
  | IndexError => "IndexError"
  | TypeError => "TypeError"
  | ValueError => "ValueError"
  | Raised name message => name ++ ": " ++ message
  end.

Definition LOCALES (key : string) : string := "$" ++ key.

(** A stateless daemon that answers from [answer]. *)
Definition scripted (answer : openrazer.call -> result pyval) : Environment :=
  Build_Environment unit (fun c d => (answer c, d))
    LOCALES get_exception_as_string repr int_of_str json_dumps.

(** A daemon that answers every call with the same value. *)
Definition answering (v : pyval) : Environment := scripted (fun _ => Ok v).

(** Two devices: a keyboard with two zones, and a mouse that is unplugged. *)
Definition keyboard : pyval :=
  PDict [("uid", PInt 0); ("available", PBool true);
         ("zones", PList [PStr "main"; PStr "logo"])].

Definition mouse : pyval :=
  PDict [("uid", PInt 1); ("available", PBool false);
         ("zones", PList [PStr "scroll"])].

Definition two_devices : Environment :=
  scripted (fun c =>
    match c with
    | openrazer.get_device_list => Ok (PList [keyboard; mouse])
    | _ => Ok (PBool true)
    end).

(** No device is connected. *)
Definition no_devices : Environment :=
  scripted (fun c =>
    match c with
    | openrazer.get_device_list => Ok (PList [])
    | _ => Ok (PBool true)
    end).

(** The daemon is not reachable: every call raises. *)
Definition unreachable : Environment :=
  scripted (fun _ => Raise (Raised "DBusException" "daemon is gone")).

(** A daemon message of two lines. *)
Definition two_lines : string := "Traceback:" ++ String LF "daemon died".

Definition state_payload : pyval :=
  PDict [("uid", PStr "0"); ("backend", PStr "openrazer");
         ("backend_request", PStr "wave"); ("zone", PStr "main");
         ("colour_hex", PList [PStr "#00FF00"]); ("params", PList [PInt 1])].

Definition matrix_payload : pyval :=
  PDict [("uid", PStr "0"); ("backend", PStr "openrazer");
         ("position", PList [PInt 2; PInt 3])].

Definition apply_payload (type value : pyval) : pyval :=
  PDict [("type", type); ("value", value)].

End Sample.

(** ** The button icons

    [_get_button_svg_list] reads the file system through [glob.glob] and
    [open]; both are parameters here: the list of paths the pattern matches
    and the text of a file (or the exception of [open]). *)

Definition slash : ascii := "/"%char.

(** [s.split("/")]: never empty. *)
Fixpoint split_slash (s : string) : list string :=
  match s with
  | EmptyString => [EmptyString]
  | String c rest =>
      if Ascii.eqb c slash then EmptyString :: split_slash rest
      else match split_slash rest with
           | [] => [String c EmptyString]
           | first :: more => String c first :: more
           end
  end.

(** [s.replace(".svg", "")]: the occurrences are found from the left and do
    not overlap; [skip] counts the characters of a found occurrence that are
    still to be dropped. *)
Fixpoint remove_svg (skip : nat) (s : string) : string :=
  match s with
  | EmptyString => EmptyString
  | String c rest =>
      match skip with
      | S k => remove_svg k rest
      | O =>
          if String.prefix ".svg" s then remove_svg 3 rest
          else String c (remove_svg 0 rest)
      end
  end.

(** [path.split("/").pop().replace(".svg", "")] *)
Definition svg_name (path : string) : string :=
  remove_svg 0 (last (split_slash path) EmptyString).

(** [output[k] = v]: an existing key keeps its place, a new one goes last. *)
Fixpoint dict_set (k : string) (v : pyval) (entries : list (string * pyval))
  : list (string * pyval) :=
  match entries with
  | [] => [(k, v)]
  | (k', v') :: rest =>
      if String.eqb k' k then (k', v) :: rest else (k', v') :: dict_set k v rest
  end.

(** The loop of [_get_button_svg_list] over the paths, from the dictionary
    built so far. *)
Fixpoint collect_svgs (read_file : string -> result string) (icons : list string)
    (output : list (string * pyval)) : result (list (string * pyval)) :=
  match icons with
  | [] => Ok output
  | path :: rest =>
      let name := svg_name path in
      match read_file path with
      | Ok text => collect_svgs read_file rest (dict_set name (PStr text) output)
      | Raise e => Raise e
      end
  end.

Definition _get_button_svg_list (data_dir_path : string) (glob : string -> list string)
    (read_file : string -> result string) : result pyval :=
  let icons := glob (data_dir_path ++ "/ui/img/button/*.svg")%string in
  match collect_svgs read_file icons [] with
  | Ok output => Ok (PDict output)
  | Raise e => Raise e
  end.

(** ** Start-up

    [initalise_app] also uses the window handed to [__init__], the
    preferences module and the file system; they are the fields of
    [Application]. *)
Class Application {env : Environment} : Type := {
  (** [self.window.show_window()] *)
  window_show_window : M unit;
  (** [locales.LOCALES] as the value sent to the view *)
  locales_table : pyval;
  (** [pref.load_file(pref.path.colours)] and [pref.load_file(path.preferences)] *)
  pref_load_colours : result pyval;
  pref_load_preferences : result pyval;
  (** [pref.version] *)
  pref_version : pyval;
  (** [common.get_data_dir_path()], [glob.glob] and the text of a file *)
  get_data_dir_path : string;
  glob_glob : string -> list string;
  open_read : string -> result string;
  (** [a > b], a Python built-in left abstract *)
  py_gt : pyval -> pyval -> result bool
}.

(** The attributes of the controller that [__init__] and [initalise_app]
    set. *)
Record controller : Type := Controller {
  version : pyval;
  versions : pyval;
  backends : list (string * pyval)
}.

Definition __init__ : controller :=
  {| version := PNone; versions := PNone; backends := [("openrazer", PBool false)] |}.

(** ["Version " + version] *)
Definition py_concat (prefix : string) (v : pyval) : result string :=
  match v with
  | PStr s => Ok (prefix ++ s)%string
  | _ => Raise TypeError
  end.

Section Startup.

Context {env : Environment} {app : Application}.

(** Lines 96-107 of [initalise_app]: what is done with the device list; the
    result is the controller with its [backends] attribute. *)
Definition device_list_result (self : controller) (devices : pyval) : M controller :=
  if py_eq_const devices (KInt (-1)) then
    stdout "OpenRazer: Daemon not running" dbg.error None ;;;
    ret self
  else if type_is_str devices then
    stdout ("OpenRazer: Error! Exception: " ++ py_str devices) dbg.error None ;;;
    _internal_error (LOCALES "error_not_ready_title")
                    (LOCALES "error_not_ready_text" ++ "<code>" ++ py_str devices ++ "</code>")
                    "serious" ;;;
    ret self
  else
    stdout "OpenRazer: Ready" dbg.success (Some 1) ;;;
    emit (send_view_variable "OPENRAZER_READY" (PBool true)) ;;;
    ret {| version := version self;
           versions := versions self;
           backends := dict_set "openrazer" (PBool true) (backends self) |}.

(** [initalise_app(version, versions)]: the value returned and the
    controller's attributes at the return. *)
Definition initalise_app (self : controller) (version versions : pyval)
  : M (pyval * controller) :=
  let self := {| version := version; versions := versions; backends := backends self |} in
  banner <- lift (py_concat "Version " version) ;;
  stdout banner dbg.debug (Some 1) ;;;
  emit (send_view_variable "LOCALES" locales_table) ;;;
  colours <- lift pref_load_colours ;;
  emit (send_view_variable "COLOURS" colours) ;;;
  svgs <- lift (_get_button_svg_list get_data_dir_path glob_glob open_read) ;;
  emit (send_view_variable "BUTTON_SVGS" svgs) ;;;
  run_function (PStr "build_view") no_data ;;;
  stdout "OpenRazer: Getting device list..." dbg.action (Some 1) ;;;
  devices <- openrazer openrazer.get_device_list ;;
  emit (send_view_variable "CACHE_DEVICES" devices) ;;;
  self <- device_list_result self devices ;;
  pref_data <- lift pref_load_preferences ;;
  save_version <- lift (py_getitem pref_data (PStr "config_version")) ;;
  newer <- lift (py_gt save_version pref_version) ;;
  (if newer : bool then
     run_function (PStr "_warn_save_data_version")
       (PDict [("app_version", version);
               ("pref_version", pref_version);
               ("save_version", save_version)])
   else ret tt) ;;;
  stdout "Application Ready. Showing window." dbg.success (Some 1) ;;;
  window_show_window ;;;
  run_function (PStr "_set_tab_devices") no_data ;;;
  ret (PBool true, self).

End Startup.

(** ** More vocabulary *)

(** The backend calls among the events, in order. *)
Definition backend_calls (evs : list event) : list openrazer.call :=
  flat_map (fun e => match e with backend c => [c] | _ => [] end) evs.

Definition is_backend_event (e : event) : bool :=
  match e with backend _ => true | _ => false end.

Definition is_set_device_colours (c : openrazer.call) : bool :=
  match c with openrazer.set_device_colours _ _ _ => true | _ => false end.

(** [True] when the character occurs in the string. *)
Fixpoint has_char (c : ascii) (s : string) : bool :=
  match s with
  | EmptyString => false
  | String x rest => Ascii.eqb x c || has_char c rest
  end.

Section StartupVocabulary.

Context {env : Environment} {app : Application}.

(** What [initalise_app] needs before it asks for the device list: a version
    string, the colours file and the button icons. *)
Definition startup_loads (version : pyval) (v : string) (colours svgs : pyval) : Prop :=
  version = PStr v
  /\ pref_load_colours = Ok colours
  /\ _get_button_svg_list get_data_dir_path glob_glob open_read = Ok svgs.

(** The preferences load, carry a [config_version], and it compares with
    [pref.version]. *)
Definition preferences_checked (save_version : pyval) (newer : bool) : Prop :=
  exists pref_data,
    pref_load_preferences = Ok pref_data
    /\ py_getitem pref_data (PStr "config_version") = Ok save_version
    /\ py_gt save_version pref_version = Ok newer.

(** The preferences step fails with [e]: at the load, at the lookup of
    [config_version] or at the comparison. *)
Definition preferences_fail (e : exn) : Prop :=
  pref_load_preferences = Raise e
  \/ (exists pref_data,
        pref_load_preferences = Ok pref_data
        /\ (py_getitem pref_data (PStr "config_version") = Raise e
            \/ exists save_version,
                 py_getitem pref_data (PStr "config_version") = Ok save_version
                 /\ py_gt save_version pref_version = Raise e)).

(** The events of [initalise_app] up to the push of the device list. *)
Definition view_events (v : string) (colours svgs devices : pyval) : list event :=
  [dbg_stdout ("Version " ++ v) dbg.debug (Some 1);
   send_view_variable "LOCALES" locales_table;
   send_view_variable "COLOURS" colours;
   send_view_variable "BUTTON_SVGS" svgs;
   run_js (run_function_js (PStr "build_view") (PDict []));
   dbg_stdout "OpenRazer: Getting device list..." dbg.action (Some 1);
   backend openrazer.get_device_list;
   send_view_variable "CACHE_DEVICES" devices].

(** The warning about preferences saved by a newer version, when due. *)
Definition version_warning (version save_version : pyval) (newer : bool) : list event :=
  if newer then
    [run_js (run_function_js (PStr "_warn_save_data_version")
               (PDict [("app_version", version);
                       ("pref_version", pref_version);
                       ("save_version", save_version)]))]
  else [].

(** The end of [initalise_app]: the window is shown, then the devices tab is
    selected. *)
Definition window_events (shown : list event) : list event :=
  dbg_stdout "Application Ready. Showing window." dbg.success (Some 1)
  :: shown ++ [run_js (run_function_js (PStr "_set_tab_devices") (PDict []))].

End StartupVocabulary.

(** More daemons and payloads for the examples. *)
Module Cases.

(** The daemon is not running: the device list is the integer -1. *)
Definition not_running : Environment :=
  Sample.scripted (fun c =>
    match c with
    | openrazer.get_device_list => Ok (PInt (-1))
    | _ => Ok PNone
    end).

(** The troubleshooter raises; every other call succeeds. *)
Definition broken_troubleshooter : Environment :=
  Sample.scripted (fun c =>
    match c with
    | openrazer.troubleshoot => Raise (Raised "DBusException" "daemon is gone")
    | _ => Ok (PBool true)
    end).

(** Three icon files, two of which give the same name. *)
Definition icons : list string :=
  ["/usr/share/polychromatic/ui/img/button/wave.svg";
   "/usr/share/polychromatic/ui/img/button/dpi.svg";
   "/usr/share/polychromatic/ui/img/button/wave.svg.svg"].

Definition icon_text (path : string) : result string :=
  Ok ("<svg>" ++ path ++ "</svg>")%string.

(** A window whose [show_window] leaves a line in the log, preferences of
    version 5 against the versions 8 and 3 of the program. *)
Definition application (env : Environment) (program_version : Z) : @Application env :=
  @Build_Application env
    (@emit env (dbg_stdout "show_window" dbg.debug None))
    (PDict [("title", PStr "Polychromatic")])
    (Ok (PDict [("green", PStr "#00FF00")]))
    (Ok (PDict [("config_version", PInt 5)]))
    (PInt program_version)
    "/usr/share/polychromatic"
    (fun _ => icons)
    icon_text
    (fun a b =>
       match a, b with
       | PInt x, PInt y => Ok (y <? x)
       | _, _ => Raise TypeError
       end).

(** The preferences file has no [config_version]. *)
Definition old_preferences (env : Environment) : @Application env :=
  @Build_Application env
    (@emit env (dbg_stdout "show_window" dbg.debug None))
    (PDict [("title", PStr "Polychromatic")])
    (Ok (PDict [("green", PStr "#00FF00")]))
    (Ok (PDict []))
    (PInt 8)
    "/usr/share/polychromatic"
    (fun _ => icons)
    icon_text
    (fun a b =>
       match a, b with
       | PInt x, PInt y => Ok (y <? x)
       | _, _ => Raise TypeError
       end).

(** The daemon answers [get_device_list] with an error message. *)
Definition daemon_error : Environment :=
  Sample.scripted (fun c =>
    match c with
    | openrazer.get_device_list => Ok (PStr "no session bus")
    | _ => Ok PNone
    end).

End Cases.

(** ** Running computations *)

Section Running.

Context {env : Environment}.

Lemma outcome_eta (A : Type) (o : outcome A) :
  Outcome (returned o) (emitted o) (final o) = o.
Proof. destruct o; reflexivity. Qed.

Lemma bind_lift_Ok (A B : Type) (a : A) (k : A -> M B) (d : daemon) :
  bind (lift (Ok a)) k d = k a d.
Proof. unfold bind, lift; simpl. apply outcome_eta. Qed.

Lemma bind_ret (A B : Type) (a : A) (k : A -> M B) (d : daemon) :
  bind (ret a) k d = k a d.
Proof. unfold bind, ret; simpl. apply outcome_eta. Qed.

Lemma bind_emit (B : Type) (ev : event) (k : unit -> M B) (d : daemon) :
  bind (emit ev) k d
  = Outcome (returned (k tt d)) (ev :: emitted (k tt d)) (final (k tt d)).
Proof. reflexivity. Qed.

Lemma bind_openrazer (B : Type) (c : openrazer.call) (k : pyval -> M B)
    (d d' : daemon) (v : pyval) :
  openrazer_run c d = (Ok v, d') ->
  bind (openrazer c) k d
  = Outcome (returned (k v d')) (backend c :: emitted (k v d')) (final (k v d')).
Proof. intros H. unfold bind, openrazer. rewrite H. reflexivity. Qed.

Lemma bind_run (A B : Type) (m : M A) (k : A -> M B) (d d' : daemon)
    (a : A) (evs : list event) :
  m d = Outcome (Ok a) evs d' ->
  bind m k d = Outcome (returned (k a d')) (evs ++ emitted (k a d')) (final (k a d')).
Proof. intros H. unfold bind. rewrite H. reflexivity. Qed.

Lemma bind_then_ret (A B : Type) (m : M A) (b : B) (d : daemon) :
  bind m (fun _ => ret b) d
  = Outcome (match returned (m d) with Ok _ => Ok b | Raise e => Raise e end)
      (emitted (m d)) (final (m d)).
Proof.
  unfold bind, ret. destruct (returned (m d)); simpl; [rewrite app_nil_r|]; reflexivity.
Qed.

Lemma try_except_ret (A : Type) (a : A) (handler : exn -> M A) (d : daemon) :
  try_except (ret a) handler d = Outcome (Ok a) [] d.
Proof. reflexivity. Qed.

Lemma try_except_run (A : Type) (body : M A) (handler : exn -> M A) (d : daemon) :
  try_except body handler d
  = match returned (body d) with
    | Ok a => Outcome (Ok a) (emitted (body d)) (final (body d))
    | Raise e =>
        let o' := handler e (final (body d)) in
        Outcome (returned o') (emitted (body d) ++ emitted o') (final o')
    end.
Proof.
  unfold try_except. destruct (body d) as [[a|e] evs d']; reflexivity.
Qed.

(** A loop whose body succeeds on every item, emitting [f x] for item [x],
    succeeds and emits the concatenation. *)
Lemma for_each_emits (xs : list pyval) (body : pyval -> M unit) (f : pyval -> list event) :
  (forall x d, In x xs -> returned (body x d) = Ok tt /\ emitted (body x d) = f x) ->
  forall d,
    returned (for_each xs body d) = Ok tt
    /\ emitted (for_each xs body d) = flat_map f xs.
Proof.
  induction xs as [|x rest IH]; intros Hbody d.
  - split; reflexivity.
  - destruct (Hbody x d (or_introl eq_refl)) as [Hr He].
    destruct (IH (fun y d' Hy => Hbody y d' (or_intror Hy)) (final (body x d))) as [IHr IHe].
    simpl. unfold bind. rewrite Hr. simpl. rewrite IHr, IHe, He. split; reflexivity.
Qed.

(** A loop stops at the first item whose body raises. *)
Lemma for_each_raises (x : pyval) (rest : list pyval) (body : pyval -> M unit)
    (d : daemon) (e : exn) :
  returned (body x d) = Raise e ->
  for_each (x :: rest) body d = Outcome (Raise e) (emitted (body x d)) (final (body x d)).
Proof. intros H. simpl. unfold bind. rewrite H. reflexivity. Qed.

(** A loop skips an item whose body succeeds silently and leaves the daemon
    as it was. *)
Lemma for_each_skip (x : pyval) (rest : list pyval) (body : pyval -> M unit) (d : daemon) :
  body x d = Outcome (Ok tt) [] d ->
  for_each (x :: rest) body d = for_each rest body d.
Proof. intros H. simpl. unfold bind. rewrite H. simpl. apply outcome_eta. Qed.

(** A loop whose body is silent on every item is silent. *)
Lemma for_each_silent (xs : list pyval) (body : pyval -> M unit) :
  (forall x d, In x xs -> body x d = Outcome (Ok tt) [] d) ->
  forall d, for_each xs body d = Outcome (Ok tt) [] d.
Proof.
  induction xs as [|x rest IH]; intros Hbody d.
  - reflexivity.
  - rewrite (for_each_skip _ _ _ _ (Hbody x d (or_introl eq_refl))).
    apply IH. intros y d' Hy. apply Hbody. right. exact Hy.
Qed.

End Running.

(** Steps through the leading built-in operations of a handler. *)
Ltac step :=
  first [ rewrite bind_lift_Ok | rewrite bind_ret | rewrite bind_emit ]; cbv beta.

(** ** String facts *)

Lemma append_assoc (a b c : string) : ((a ++ b) ++ c = a ++ (b ++ c))%string.
Proof. induction a as [|x a IH]; simpl; [reflexivity | rewrite IH; reflexivity]. Qed.

Lemma prefix_append (a b : string) : String.prefix a (a ++ b) = true.
Proof.
  induction a as [|c a IH]; simpl.
  - destruct b; reflexivity.
  - destruct (Ascii.ascii_dec c c) as [_|n]; [exact IH | contradiction].
Qed.

Lemma contains_prefix (needle hay : string) :
  String.prefix needle hay = true -> contains needle hay = true.
Proof. intros H. destruct hay; cbn [contains]; rewrite H; reflexivity. Qed.

Lemma contains_append (needle a b : string) :
  contains needle (a ++ needle ++ b) = true.
Proof.
  induction a as [|c a IH].
  - change (contains needle (needle ++ b) = true).
    apply contains_prefix, prefix_append.
  - change (contains needle (String c (a ++ needle ++ b)) = true).
    cbn [contains]. rewrite IH. apply orb_true_r.
Qed.

Lemma replace_newlines_append (a b : string) :
  replace_newlines (a ++ b) = (replace_newlines a ++ replace_newlines b)%string.
Proof.
  induction a as [|c a IH]; simpl.
  - reflexivity.
  - rewrite IH. destruct (Ascii.eqb c LF); reflexivity.
Qed.

Lemma replace_newlines_id (s : string) :
  has_newline s = false -> replace_newlines s = s.
Proof.
  induction s as [|c s IH]; simpl; intros H.
  - reflexivity.
  - apply orb_false_iff in H. destruct H as [Hc Hs].
    rewrite Hc, (IH Hs). reflexivity.
Qed.

(** ** [set_device_state]: the classification of the backend's answer *)

Section SetDeviceState.

Context {env : Environment}.

(** Once the payload is decoded and the backend has answered, the handler has
    logged the request, made the one backend call, and goes on with the
    classification of the answer. *)
Lemma set_device_state_run
    (data uid backend_ backend_request zone colour_hex params request : pyval)
    (d d' : daemon) :
  state_request_of data uid backend_ backend_request zone colour_hex params ->
  openrazer_run (openrazer.set_device_state uid backend_request zone colour_hex params) d
    = (Ok request, d') ->
  _set_device_state data d
  = Outcome (returned (set_device_state_result request d'))
      (dbg_stdout (processing_message uid backend_ backend_request) dbg.action (Some 1)
       :: backend (openrazer.set_device_state uid backend_request zone colour_hex params)
       :: emitted (set_device_state_result request d'))
      (final (set_device_state_result request d')).
Proof.
  intros [[raw [Hraw Huid]] [Hb [Hr [Hz [Hc Hp]]]]] Hrun.
  unfold _set_device_state, stdout.
  rewrite Hraw; step. rewrite Huid; step. rewrite Hb; step. rewrite Hr; step.
  rewrite Hz; step. rewrite Hc; step. rewrite Hp; step. step.
  rewrite (bind_openrazer _ _ _ _ _ _ Hrun). reflexivity.
Qed.

(** C7.  When the backend's state-mutation call returns [False], the handler
    produces exactly the "bad request" warning dialog: after the request line
    and the backend call come the "Invalid request." warning line and that
    one dialog; there is no success line and no other UI action. *)
Theorem set_device_state_false_is_bad_request
    (data uid backend_ backend_request zone colour_hex params : pyval) (d d' : daemon) :
  state_request_of data uid backend_ backend_request zone colour_hex params ->
  openrazer_run (openrazer.set_device_state uid backend_request zone colour_hex params) d
    = (Ok (PBool false), d') ->
  _set_device_state data d
  = Outcome (Ok tt)
      [dbg_stdout (processing_message uid backend_ backend_request) dbg.action (Some 1);
       backend (openrazer.set_device_state uid backend_request zone colour_hex params);
       dbg_stdout "Invalid request." dbg.warning None;
       run_js bad_request_dialog]
      d'.
Proof.
  intros Hdata Hrun.
  rewrite (set_device_state_run _ _ _ _ _ _ _ _ _ _ Hdata Hrun). reflexivity.
Qed.

(** C8, as amended.  When the backend's state-mutation call returns a string,
    the handler's only UI action is one serious dialog whose message embeds
    the string between [<pre>] and [</pre>] with every line feed replaced by
    [<br>]; the string therefore appears verbatim when it has no line feed.
    The string itself is then written to the log. *)
Theorem set_device_state_string_is_serious_dialog
    (data uid backend_ backend_request zone colour_hex params : pyval) (d d' : daemon)
    (message : string) :
  state_request_of data uid backend_ backend_request zone colour_hex params ->
  openrazer_run (openrazer.set_device_state uid backend_request zone colour_hex params) d
    = (Ok (PStr message), d') ->
  _set_device_state data d
  = Outcome (Ok tt)
      [dbg_stdout (processing_message uid backend_ backend_request) dbg.action (Some 1);
       backend (openrazer.set_device_state uid backend_request zone colour_hex params);
       run_js (backend_dialog message);
       dbg_stdout message dbg.error None]
      d'
  /\ contains ("<pre>" ++ replace_newlines message ++ "</pre>") (backend_dialog message) = true
  /\ (has_newline message = false ->
      contains ("<pre>" ++ message ++ "</pre>") (backend_dialog message) = true)
  /\ contains ", 'serious', " (backend_dialog message) = true.
Proof.
  intros Hdata Hrun.
  assert (Hpre : contains ("<pre>" ++ replace_newlines message ++ "</pre>")
                          (backend_dialog message) = true).
  { unfold backend_dialog, open_dialog_js.
    rewrite !replace_newlines_append.
    change (replace_newlines "<pre>") with "<pre>".
    change (replace_newlines "</pre>") with "</pre>".
    set (needle := ("<pre>" ++ replace_newlines message ++ "</pre>")%string).
    set (a := ("open_dialog(`" ++ LOCALES "error_backend_title" ++ "`, `"
                 ++ replace_newlines (LOCALES "error_backend_text"))%string).
    set (b := ("`, '" ++ "serious" ++ "', [['OK', '']], '40em', '80em')")%string).
    replace (_ ++ _)%string with (a ++ needle ++ b)%string.
    - apply contains_append.
    - unfold a, needle, b. rewrite !append_assoc. reflexivity. }
  split; [|split; [|split]].
  - rewrite (set_device_state_run _ _ _ _ _ _ _ _ _ _ Hdata Hrun). reflexivity.
  - exact Hpre.
  - intros Hclean. rewrite (replace_newlines_id _ Hclean) in Hpre. exact Hpre.
  - unfold backend_dialog, open_dialog_js.
    set (a := ("open_dialog(`" ++ LOCALES "error_backend_title" ++ "`, `"
                 ++ replace_newlines (LOCALES "error_backend_text" ++ "<pre>" ++ message
                                        ++ "</pre>") ++ "`")%string).
    replace (_ ++ _)%string
      with (a ++ ", 'serious', " ++ "[['OK', '']], '40em', '80em')")%string.
    + apply contains_append.
    + unfold a. rewrite !append_assoc. reflexivity.
Qed.

(** C10.  The answer is classified with [==]: the integer [0] is handled as
    [False] (the "Invalid request." line and the "bad request" warning dialog)
    and the integer [1] as [True] (the success line, no dialog), because the
    comparisons with [None] and [False] come before the test of the type. *)
Theorem set_device_state_compares_by_equality
    (data uid backend_ backend_request zone colour_hex params request : pyval)
    (d d' : daemon) :
  state_request_of data uid backend_ backend_request zone colour_hex params ->
  openrazer_run (openrazer.set_device_state uid backend_request zone colour_hex params) d
    = (Ok request, d') ->
  (request = PInt 0 \/ request = PBool false ->
   _set_device_state data d
   = Outcome (Ok tt)
       [dbg_stdout (processing_message uid backend_ backend_request) dbg.action (Some 1);
        backend (openrazer.set_device_state uid backend_request zone colour_hex params);
        dbg_stdout "Invalid request." dbg.warning None;
        run_js bad_request_dialog]
       d')
  /\ (request = PInt 1 \/ request = PBool true ->
      _set_device_state data d
      = Outcome (Ok tt)
          [dbg_stdout (processing_message uid backend_ backend_request) dbg.action (Some 1);
           backend (openrazer.set_device_state uid backend_request zone colour_hex params);
           dbg_stdout "Successfully executed request" dbg.success (Some 1)]
          d').
Proof.
  intros Hdata Hrun.
  rewrite (set_device_state_run _ _ _ _ _ _ _ _ _ _ Hdata Hrun).
  split; intros [-> | ->]; reflexivity.
Qed.

End SetDeviceState.

(** ** The router *)

Section Router.

Context {env : Environment}.

Lemma handler_get_None (request : string) (table : list (string * (pyval -> M unit))) :
  ~ In request (map fst table) -> handler_get request table = None.
Proof.
  induction table as [|[name handler] rest IH]; simpl; intros H.
  - reflexivity.
  - destruct (String.eqb_spec name request) as [E|_].
    + exfalso. apply H. left. exact E.
    + apply IH. intros Hin. apply H. right. exact Hin.
Qed.

(** What [parse_request] does around the call of the handler: the first [try]
    never fails, and the second one turns an exception of the call into two
    log lines and the generic dialog. *)
Lemma parse_request_run (request : string) (data : pyval) (d : daemon) :
  parse_request request data d
  = let o := call_handler requests request data d in
    match returned o with
    | Ok _ => Outcome (Ok PNone) (emitted o) (final o)
    | Raise e =>
        Outcome (Ok PNone)
          (emitted o ++ failure_log request data e
             ++ [run_js (generic_dialog (get_exception_as_string e))])
          (final o)
    end.
Proof.
  unfold parse_request.
  rewrite (bind_run _ _ _ _ _ _ _ _ (try_except_ret _ (Some requests) _ d)).
  cbv beta iota. rewrite !app_nil_l, outcome_eta.
  rewrite bind_then_ret. rewrite try_except_run.
  destruct (returned (call_handler requests request data d)) as [[]|e];
    cbv zeta beta iota; unfold returned, emitted, final; reflexivity.
Qed.

Lemma generic_dialog_shows_traceback (traceback : string) :
  contains ("<code>" ++ replace_newlines traceback ++ "</code>") (generic_dialog traceback)
  = true.
Proof.
  unfold generic_dialog, open_dialog_js.
  rewrite !replace_newlines_append.
  change (replace_newlines "<br><br><code>") with ("<br><br>" ++ "<code>")%string.
  change (replace_newlines "</code>") with "</code>".
  set (needle := ("<code>" ++ replace_newlines traceback ++ "</code>")%string).
  set (a := ("open_dialog(`" ++ LOCALES "error_generic_title" ++ "`, `"
               ++ replace_newlines (LOCALES "error_generic_text") ++ "<br><br>")%string).
  set (b := ("`, '" ++ "serious" ++ "', [['OK', '']], '40em', '80em')")%string).
  replace (_ ++ _)%string with (a ++ needle ++ b)%string.
  - apply contains_append.
  - unfold a, needle, b. rewrite !append_assoc. reflexivity.
Qed.

(** C1, on the code.  For a request name that is not a key of [requests], the
    router does not reach its "Unknown Request" branch: the lookup fails
    inside the second [try], so the router writes the two "Failed to execute
    request" log lines and raises the generic error dialog with the trace of
    the [KeyError].  It makes no backend call and returns normally. *)
Theorem parse_request_unknown_request (request : string) (data : pyval) (d : daemon) :
  ~ In request (map fst requests) ->
  parse_request request data d
  = Outcome (Ok PNone)
      [dbg_stdout ("Failed to execute request: " ++ request ++ " with data: " ++ py_str data)
                  dbg.error None;
       dbg_stdout (get_exception_as_string (KeyError (PStr request))) dbg.error None;
       run_js (generic_dialog (get_exception_as_string (KeyError (PStr request))))]
      d.
Proof.
  intros Hunknown. rewrite parse_request_run.
  unfold call_handler. rewrite (handler_get_None _ _ Hunknown). reflexivity.
Qed.

(** C4.  For every handler of the table and every payload, [parse_request]
    returns normally.  When the call of the handler ends with an exception,
    the router adds, after whatever the handler did, two log lines and exactly
    one generic error dialog, whose message shows the trace between [<code>]
    tags (line feeds as [<br>]); when the call succeeds it adds nothing. *)
Theorem parse_request_catches_handler_exceptions
    (request : string) (handler : pyval -> M unit) (data : pyval) (d : daemon) :
  handler_get request requests = Some handler ->
  returned (parse_request request data d) = Ok PNone
  /\ (forall e, returned (handler data d) = Raise e ->
      parse_request request data d
      = Outcome (Ok PNone)
          (emitted (handler data d)
             ++ [dbg_stdout ("Failed to execute request: " ++ request ++ " with data: "
                               ++ py_str data) dbg.error None;
                 dbg_stdout (get_exception_as_string e) dbg.error None;
                 run_js (generic_dialog (get_exception_as_string e))])
          (final (handler data d))
      /\ contains ("<code>" ++ replace_newlines (get_exception_as_string e) ++ "</code>")
                  (generic_dialog (get_exception_as_string e)) = true)
  /\ (forall a, returned (handler data d) = Ok a ->
      parse_request request data d
      = Outcome (Ok PNone) (emitted (handler data d)) (final (handler data d))).
Proof.
  intros Hhandler.
  assert (Hrun := parse_request_run request data d).
  unfold call_handler in Hrun. rewrite Hhandler in Hrun. cbv zeta in Hrun.
  split; [|split].
  - rewrite Hrun. destruct (returned (handler data d)); reflexivity.
  - intros e He. rewrite He in Hrun. split.
    + exact Hrun.
    + apply generic_dialog_shows_traceback.
  - intros a Ha. rewrite Ha in Hrun. exact Hrun.
Qed.

End Router.

(** ** [open_device] and [debug_matrix] *)

Section DeviceQueries.

Context {env : Environment}.

(** [_open_device] makes one backend call and one UI call; the comparison
    [data == str] never holds, so only [None] is told apart. *)
Lemma open_device_run (data uid answer : pyval) (d d' : daemon) :
  py_getitem data (PStr "uid") = Ok uid ->
  openrazer_run (openrazer.get_device uid) d = (Ok answer, d') ->
  _open_device data d
  = Outcome (Ok tt)
      [backend (openrazer.get_device uid);
       run_js (if py_eq_const answer KNone
               then run_function_js (PStr "open_device_overview") no_data
               else run_function_js (PStr "_open_device") answer)]
      d'.
Proof.
  intros Huid Hrun. unfold _open_device.
  rewrite Huid; step. rewrite (bind_openrazer _ _ _ _ _ _ Hrun).
  replace (py_eq_const answer KTypeStr) with false by (destruct answer; reflexivity).
  destruct (py_eq_const answer KNone); reflexivity.
Qed.

(** C2, on the code.  When [get_device] returns a string, the handler does
    not call [_open_device_error]: it calls the render function
    [_open_device] with the string as its data. *)
Theorem open_device_string_is_rendered (data uid : pyval) (message : string) (d d' : daemon) :
  py_getitem data (PStr "uid") = Ok uid ->
  openrazer_run (openrazer.get_device uid) d = (Ok (PStr message), d') ->
  _open_device data d
  = Outcome (Ok tt)
      [backend (openrazer.get_device uid);
       run_js (run_function_js (PStr "_open_device") (PStr message))]
      d'.
Proof.
  intros Huid Hrun. rewrite (open_device_run _ _ _ _ _ Huid Hrun). reflexivity.
Qed.

(** X21.  [_open_device] tells only [None] apart: it opens the overview with
    the default data [{}]; any other answer is handed to the render function. *)
Lemma open_device_none_and_data (data uid answer : pyval) (d d' : daemon) :
  py_getitem data (PStr "uid") = Ok uid ->
  openrazer_run (openrazer.get_device uid) d = (Ok answer, d') ->
  (answer = PNone ->
   scripts (emitted (_open_device data d))
   = [run_function_js (PStr "open_device_overview") (PDict [])])
  /\ (answer <> PNone ->
      scripts (emitted (_open_device data d))
      = [run_function_js (PStr "_open_device") answer]).
Proof.
  intros Huid Hrun. rewrite (open_device_run _ _ _ _ _ Huid Hrun).
  split; intros H.
  - subst answer. reflexivity.
  - destruct answer; try reflexivity. contradiction.
Qed.

(** Once the payload is decoded and the backend has answered, [_debug_matrix]
    has made its one backend call and goes on with the classification. *)
Lemma debug_matrix_run (data uid row column irow icolumn request : pyval) (d d' : daemon) :
  matrix_request_of data uid row column irow icolumn ->
  openrazer_run (openrazer.debug_matrix uid irow icolumn) d = (Ok request, d') ->
  _debug_matrix data d
  = Outcome (returned (debug_matrix_result row column request d'))
      (backend (openrazer.debug_matrix uid irow icolumn)
       :: emitted (debug_matrix_result row column request d'))
      (final (debug_matrix_result row column request d')).
Proof.
  intros [[raw [Hraw Huid]] [[b Hb] [[position [Hp [Hrow Hcol]]] [Hir Hic]]]] Hrun.
  unfold _debug_matrix.
  rewrite Hraw; step. rewrite Huid; step. rewrite Hb; step. rewrite Hp; step.
  rewrite Hrow; step. step. rewrite Hcol; step. rewrite Hir; step. rewrite Hic; step.
  rewrite (bind_openrazer _ _ _ _ _ _ Hrun). reflexivity.
Qed.

(** C3, on the code.  When the matrix-debug call returns [False], the handler
    does nothing after the backend call: no dialog and no log line. *)
Theorem debug_matrix_false_is_silent
    (data uid row column irow icolumn : pyval) (d d' : daemon) :
  matrix_request_of data uid row column irow icolumn ->
  openrazer_run (openrazer.debug_matrix uid irow icolumn) d = (Ok (PBool false), d') ->
  _debug_matrix data d
  = Outcome (Ok tt) [backend (openrazer.debug_matrix uid irow icolumn)] d'.
Proof.
  intros Hdata Hrun. rewrite (debug_matrix_run _ _ _ _ _ _ _ _ _ Hdata Hrun). reflexivity.
Qed.

(** X20.  The three answers [_debug_matrix] does classify. *)
Lemma debug_matrix_other_answers
    (data uid row column irow icolumn request : pyval) (d d' : daemon) :
  matrix_request_of data uid row column irow icolumn ->
  openrazer_run (openrazer.debug_matrix uid irow icolumn) d = (Ok request, d') ->
  (request = PNone ->
   emitted (_debug_matrix data d)
   = [backend (openrazer.debug_matrix uid irow icolumn); run_js device_gone_dialog])
  /\ (forall message, request = PStr message ->
      emitted (_debug_matrix data d)
      = [backend (openrazer.debug_matrix uid irow icolumn);
         run_js (backend_dialog message);
         dbg_stdout message dbg.error None])
  /\ (request = PBool true ->
      emitted (_debug_matrix data d)
      = [backend (openrazer.debug_matrix uid irow icolumn);
         dbg_stdout ("OK: [" ++ py_str row ++ "," ++ py_str column ++ "]")
                    dbg.success (Some 1)]).
Proof.
  intros Hdata Hrun. rewrite (debug_matrix_run _ _ _ _ _ _ _ _ _ Hdata Hrun).
  split; [|split]; intros; subst request; reflexivity.
Qed.

End DeviceQueries.

(** ** [apply_to_all]: the fan-out over devices and zones *)

Section ApplyToAll.

Context {env : Environment}.

Lemma device_available_inv (device : pyval) (b : bool) :
  device_available device = Some b ->
  py_getitem device (PStr "available") = Ok (PBool b).
Proof.
  unfold device_available.
  destruct (py_getitem device (PStr "available")) as [[]|]; congruence.
Qed.

Lemma device_uid_inv (device uid : pyval) :
  device_uid device = Some uid -> py_getitem device (PStr "uid") = Ok uid.
Proof.
  unfold device_uid. destruct (py_getitem device (PStr "uid")); congruence.
Qed.

Lemma device_zones_inv (device : pyval) (zones : list pyval) :
  device_zones device = Some zones ->
  exists value, py_getitem device (PStr "zones") = Ok value /\ py_iter value = Ok zones.
Proof.
  unfold device_zones. destruct (py_getitem device (PStr "zones")) as [value|]; [|congruence].
  destruct (py_iter value) eqn:E; [|congruence].
  intros H. exists value. split; congruence.
Qed.

(** The three shapes of a well-formed device entry. *)
Lemma well_formed_device_cases (device : pyval) :
  well_formed_device device = true ->
  device_available device = Some false
  \/ exists uid zones,
       device_available device = Some true
       /\ device_uid device = Some uid
       /\ device_zones device = Some zones.
Proof.
  unfold well_formed_device.
  destruct (device_available device) as [[]|]; [|auto|discriminate].
  destruct (device_uid device) as [uid|]; [|discriminate].
  destruct (device_zones device) as [zones|]; [|discriminate].
  intros _. right. exists uid, zones. auto.
Qed.

(** An unavailable device is skipped. *)
Lemma apply_to_device_unavailable (request_type request_value device : pyval) (d : daemon) :
  device_available device = Some false ->
  apply_to_device request_type request_value device d = Outcome (Ok tt) [] d.
Proof.
  intros H. unfold apply_to_device.
  rewrite (device_available_inv _ _ H); step. reflexivity.
Qed.

(** An available device runs the inner loop over its zones. *)
Lemma apply_to_device_available
    (request_type request_value device : pyval) (zones : list pyval) (d : daemon) :
  device_available device = Some true ->
  device_zones device = Some zones ->
  apply_to_device request_type request_value device d
  = for_each zones (apply_to_zone request_type request_value device) d.
Proof.
  intros Ha Hz. destruct (device_zones_inv _ _ Hz) as [value [Hv Hi]].
  unfold apply_to_device.
  rewrite (device_available_inv _ _ Ha); step. cbn [py_eq_const Bool.eqb].
  rewrite Hv; step. rewrite Hi; step. reflexivity.
Qed.

(** If the inner body succeeds on every zone of every available device,
    emitting [zone_events uid zone], then the handler succeeds: it fetches the
    device list and emits these events device by device, zone by zone. *)
Lemma apply_to_all_fan_out
    (data request_type request_value : pyval) (devices : list pyval) (d d1 : daemon)
    (zone_events : pyval -> pyval -> list event) :
  py_getitem data (PStr "type") = Ok request_type ->
  py_getitem data (PStr "value") = Ok request_value ->
  openrazer_run openrazer.get_device_list d = (Ok (PList devices), d1) ->
  forallb well_formed_device devices = true ->
  (forall device uid zone d',
      device_uid device = Some uid ->
      returned (apply_to_zone request_type request_value device zone d') = Ok tt
      /\ emitted (apply_to_zone request_type request_value device zone d')
         = zone_events uid zone) ->
  returned (_apply_to_all data d) = Ok tt
  /\ emitted (_apply_to_all data d)
     = backend openrazer.get_device_list
       :: flat_map (fun device => flat_map (zone_events (uid_of device)) (zones_of device))
            devices.
Proof.
  intros Htype Hvalue Hlist Hwf Hzone.
  unfold _apply_to_all.
  rewrite Htype; step. rewrite Hvalue; step.
  rewrite (bind_openrazer _ _ _ _ _ _ Hlist). cbn [py_iter]. step.
  cbn [returned emitted].
  rewrite forallb_forall in Hwf.
  destruct (for_each_emits devices (apply_to_device request_type request_value)
              (fun device => flat_map (zone_events (uid_of device)) (zones_of device)))
    with (d := d1) as [Hr He].
  - intros device d' Hin.
    destruct (well_formed_device_cases _ (Hwf _ Hin)) as [Hoff | [uid [zones [Ha [Hu Hz]]]]].
    + rewrite (apply_to_device_unavailable _ _ _ _ Hoff).
      unfold zones_of. rewrite Hoff. split; reflexivity.
    + rewrite (apply_to_device_available _ _ _ _ _ Ha Hz).
      unfold zones_of, uid_of. rewrite Ha, Hz, Hu.
      apply for_each_emits. intros zone d'' _. apply Hzone. exact Hu.
  - rewrite Hr, He. split; reflexivity.
Qed.

(** Events that are one backend call per zone are the calls of the fan-out. *)
Lemma fan_out_calls (mk : pyval -> pyval -> openrazer.call) (devices : list pyval) :
  flat_map (fun device =>
              flat_map (fun zone => [backend (mk (uid_of device) zone)]) (zones_of device))
           devices
  = map backend (calls_for_devices mk devices).
Proof.
  unfold calls_for_devices, calls_for_device.
  induction devices as [|device rest IH]; simpl.
  - reflexivity.
  - rewrite map_app, IH. f_equal.
    induction (zones_of device) as [|zone zones IHz]; simpl; [|rewrite IHz]; reflexivity.
Qed.

(** One state-mutation step: the lookup of the uid, then the backend call. *)
Lemma set_state_step (device uid request zone params : pyval) (d : daemon) :
  never_raises openrazer.is_set_device_state ->
  device_uid device = Some uid ->
  let m := (uid <- lift (py_getitem device (PStr "uid")) ;;
            openrazer (openrazer.set_device_state uid request zone PNone params) ;;;
            ret tt) in
  returned (m d) = Ok tt
  /\ emitted (m d) = [backend (openrazer.set_device_state uid request zone PNone params)].
Proof.
  intros Hsafe Hu m. unfold m.
  rewrite (device_uid_inv _ _ Hu); step.
  destruct (Hsafe (openrazer.set_device_state uid request zone PNone params) d eq_refl)
    as [v [d' Hrun]].
  rewrite (bind_openrazer _ _ _ _ _ _ Hrun). split; reflexivity.
Qed.



(** What [calls_for_device] stands for on a well-formed entry: nothing for a
    device whose flag is false, one call per zone for one whose flag is true. *)
Lemma calls_for_device_meaning (mk : pyval -> pyval -> openrazer.call) (device : pyval) :
  well_formed_device device = true ->
  (device_available device = Some false /\ calls_for_device mk device = [])
  \/ exists uid zones,
       device_available device = Some true
       /\ device_uid device = Some uid
       /\ device_zones device = Some zones
       /\ calls_for_device mk device = map (mk uid) zones.
Proof.
  intros Hwf. unfold calls_for_device, zones_of, uid_of.
  destruct (well_formed_device_cases _ Hwf) as [Hoff | [uid [zones [Ha [Hu Hz]]]]].
  - left. rewrite Hoff. auto.
  - right. exists uid, zones. rewrite Ha, Hu, Hz. auto.
Qed.

(** C5.  With type ["brightness"] and a value (50 in the claim),
    [apply_to_all] fetches the device list and then issues exactly one
    [set_device_state] call per zone of every device whose [available] flag is
    true, in list order, each with request name ["brightness"], no colour and
    the one-element parameter list [[value]]; a device whose flag is false
    receives no call.  Nothing else is emitted and the handler returns. *)
Theorem apply_to_all_brightness
    (data value : pyval) (devices : list pyval) (d d1 : daemon) :
  py_getitem data (PStr "type") = Ok (PStr "brightness") ->
  py_getitem data (PStr "value") = Ok value ->
  openrazer_run openrazer.get_device_list d = (Ok (PList devices), d1) ->
  forallb well_formed_device devices = true ->
  never_raises openrazer.is_set_device_state ->
  let mk := fun uid zone =>
              openrazer.set_device_state uid (PStr "brightness") zone PNone (PList [value]) in
  returned (_apply_to_all data d) = Ok tt
  /\ emitted (_apply_to_all data d)
     = backend openrazer.get_device_list :: map backend (calls_for_devices mk devices)
  /\ (forall device, In device devices ->
      (device_available device = Some false /\ calls_for_device mk device = [])
      \/ exists uid zones,
           device_available device = Some true
           /\ device_uid device = Some uid
           /\ device_zones device = Some zones
           /\ calls_for_device mk device = map (mk uid) zones).
Proof.
  intros Htype Hvalue Hlist Hwf Hsafe mk.
  destruct (apply_to_all_fan_out data _ _ devices d d1
              (fun uid zone => [backend (mk uid zone)]) Htype Hvalue Hlist Hwf) as [Hr He].
  - intros device uid zone d' Hu. unfold apply_to_zone.
    cbn [py_eq_const String.eqb Ascii.eqb Bool.eqb].
    apply set_state_step; assumption.
  - rewrite Hr, He, fan_out_calls. split; [reflexivity | split; [reflexivity|]].
    intros device Hin. apply calls_for_device_meaning.
    rewrite forallb_forall in Hwf. apply Hwf. exact Hin.
Qed.


Lemma py_eq_const_str_neq (v : pyval) (s : string) :
  v <> PStr s -> py_eq_const v (KStr s) = false.
Proof.
  intros H. destruct v; try reflexivity. simpl.
  apply String.eqb_neq. intros E. apply H. rewrite E. reflexivity.
Qed.

(** With a type outside the three, the body of the inner loop does nothing. *)
Lemma apply_to_zone_other_type (request_type request_value device zone : pyval)
    (d : daemon) :
  ~ In request_type [PStr "effect"; PStr "brightness"; PStr "colour"] ->
  apply_to_zone request_type request_value device zone d = Outcome (Ok tt) [] d.
Proof.
  intros Hother. unfold apply_to_zone.
  rewrite !py_eq_const_str_neq; [reflexivity| | |];
    intros E; apply Hother; rewrite E; simpl; auto.
Qed.

(** With such a type the walk of one device emits nothing: it succeeds when
    the entry can be walked and raises otherwise. *)
Lemma apply_to_device_other_type (request_type request_value device : pyval)
    (d : daemon) :
  ~ In request_type [PStr "effect"; PStr "brightness"; PStr "colour"] ->
  exists r,
    apply_to_device request_type request_value device d = Outcome r [] d
    /\ (walkable device = true -> r = Ok tt)
    /\ (walkable device = false -> exists e, r = Raise e).
Proof.
  intros Hother. unfold apply_to_device, walkable.
  destruct (py_getitem device (PStr "available")) as [available|e].
  - rewrite bind_lift_Ok.
    destruct (py_eq_const available (KBool false)).
    + exists (Ok tt). split; [reflexivity | split; [reflexivity | discriminate]].
    + destruct (py_getitem device (PStr "zones")) as [zones|e].
      * rewrite bind_lift_Ok. destruct (py_iter zones) as [zs|e].
        -- rewrite bind_lift_Ok. exists (Ok tt). split; [|split; [reflexivity | discriminate]].
           apply for_each_silent. intros zone d' _.
           apply apply_to_zone_other_type. exact Hother.
        -- exists (Raise e). split; [reflexivity | split; [discriminate | eauto]].
      * exists (Raise e). split; [reflexivity | split; [discriminate | eauto]].
  - exists (Raise e). split; [reflexivity | split; [discriminate | eauto]].
Qed.

(** The whole walk, with such a type. *)
Lemma walk_other_type (request_type request_value : pyval) (devices : list pyval) :
  ~ In request_type [PStr "effect"; PStr "brightness"; PStr "colour"] ->
  forall d,
    exists r,
      for_each devices (apply_to_device request_type request_value) d = Outcome r [] d
      /\ (forallb walkable devices = true -> r = Ok tt)
      /\ (forallb walkable devices = false -> exists e, r = Raise e).
Proof.
  intros Hother. induction devices as [|device rest IH]; intros d.
  - exists (Ok tt). split; [reflexivity | split; [reflexivity | discriminate]].
  - destruct (apply_to_device_other_type request_type request_value device d Hother)
      as [r [Hrun [Hok Hbad]]].
    cbn [forallb]. destruct (walkable device).
    + rewrite (Hok eq_refl) in Hrun. rewrite (for_each_skip _ _ _ _ Hrun).
      apply IH.
    + destruct (Hbad eq_refl) as [e ->].
      exists (Raise e). split; [|split; [discriminate | eauto]].
      rewrite (for_each_raises _ _ _ d e); rewrite Hrun; reflexivity.
Qed.

(** C9, as amended.  With a type outside ["effect"], ["brightness"] and
    ["colour"], whatever the value, [apply_to_all] makes exactly one backend
    call, the [get_device_list] fetch, and no state or colour call; it writes
    no log line and hands nothing to the UI.  It completes silently, and the
    router adds nothing, exactly when the fetched value can be walked (it can
    be iterated and each item has an [available] entry and, unless that
    equals [False], a [zones] entry that can be iterated); otherwise, as with
    the -1 of a daemon that is not running, the walk raises and the router
    writes its two log lines and raises the generic error dialog. *)
Theorem apply_to_all_unknown_type
    (data request_type request_value devices : pyval) (d d1 : daemon) :
  py_getitem data (PStr "type") = Ok request_type ->
  py_getitem data (PStr "value") = Ok request_value ->
  ~ In request_type [PStr "effect"; PStr "brightness"; PStr "colour"] ->
  openrazer_run openrazer.get_device_list d = (Ok devices, d1) ->
  emitted (_apply_to_all data d) = [backend openrazer.get_device_list]
  /\ (walkable_list devices = true ->
      _apply_to_all data d = Outcome (Ok tt) [backend openrazer.get_device_list] d1
      /\ parse_request "apply_to_all" data d
         = Outcome (Ok PNone) [backend openrazer.get_device_list] d1)
  /\ (walkable_list devices = false ->
      exists e,
        _apply_to_all data d = Outcome (Raise e) [backend openrazer.get_device_list] d1
        /\ parse_request "apply_to_all" data d
           = Outcome (Ok PNone)
               [backend openrazer.get_device_list;
                dbg_stdout ("Failed to execute request: " ++ "apply_to_all"
                              ++ " with data: " ++ py_str data) dbg.error None;
                dbg_stdout (get_exception_as_string e) dbg.error None;
                run_js (generic_dialog (get_exception_as_string e))]
               d1).
Proof.
  intros Htype Hvalue Hother Hlist.
  assert (Hrun : exists r,
             _apply_to_all data d = Outcome r [backend openrazer.get_device_list] d1
             /\ (walkable_list devices = true -> r = Ok tt)
             /\ (walkable_list devices = false -> exists e, r = Raise e)).
  { unfold _apply_to_all, walkable_list.
    rewrite Htype, bind_lift_Ok, Hvalue, bind_lift_Ok, (bind_openrazer _ _ _ _ _ _ Hlist).
    destruct (py_iter devices) as [items|e].
    - rewrite bind_lift_Ok.
      destruct (walk_other_type request_type request_value items Hother d1)
        as [r [Hwalk [Hok Hbad]]].
      exists r. rewrite Hwalk. split; [reflexivity | split; assumption].
    - exists (Raise e). split; [reflexivity | split; [discriminate | eauto]]. }
  destruct Hrun as [r [Hrun [Hok Hbad]]].
  assert (Hrouter := parse_request_run "apply_to_all" data d).
  change (call_handler requests "apply_to_all" data d) with (_apply_to_all data d)
    in Hrouter.
  rewrite Hrun in Hrouter. cbv zeta in Hrouter. cbn [returned emitted final] in Hrouter.
  split; [rewrite Hrun; reflexivity | split].
  - intros Hwalk. rewrite (Hok Hwalk) in Hrun, Hrouter.
    split; [exact Hrun | exact Hrouter].
  - intros Hwalk. destruct (Hbad Hwalk) as [e ->]. exists e.
    split; [exact Hrun | exact Hrouter].
Qed.

End ApplyToAll.

(** ** The theorems at concrete inputs *)

Section Examples.

Import Sample.

Lemma two_devices_never_raises (p : openrazer.call -> bool) : @never_raises two_devices p.
Proof. intros c d _. destruct c; eexists; exists d; reflexivity. Defined.

Lemma state_payload_fields (answer : openrazer.call -> result pyval) :
  @state_request_of (scripted answer) state_payload
    (PInt 0) (PStr "openrazer") (PStr "wave") (PStr "main")
    (PList [PStr "#00FF00"]) (PList [PInt 1]).
Proof.
  split; [exists (PStr "0"); split; reflexivity | repeat split; reflexivity].
Defined.

Lemma matrix_payload_fields (answer : openrazer.call -> result pyval) :
  @matrix_request_of (scripted answer) matrix_payload
    (PInt 0) (PInt 2) (PInt 3) (PInt 2) (PInt 3).
Proof.
  split; [exists (PStr "0"); split; reflexivity|].
  split; [exists (PStr "openrazer"); reflexivity|].
  split; [exists (PList [PInt 2; PInt 3]); repeat split; reflexivity|].
  split; reflexivity.
Defined.

(** C1 at the request name ["bogus"]: the generic dialog, not the "not
    implemented" one. *)
Lemma parse_request_unknown_request_witness :
  @parse_request no_devices "bogus" (PDict []) tt
  = @Outcome no_devices _ (Ok PNone)
      [dbg_stdout "Failed to execute request: bogus with data: {}" dbg.error None;
       dbg_stdout "KeyError: 'bogus'" dbg.error None;
       run_js "open_dialog(`$error_generic_title`, `$error_generic_text<br><br><code>KeyError: 'bogus'</code>`, 'serious', [['OK', '']], '40em', '80em')"]
      tt.
Proof.
  apply (@parse_request_unknown_request no_devices "bogus" (PDict []) tt).
  simpl. intuition discriminate.
Defined.

(** At that input the one script handed to the UI is not the "not
    implemented" dialog of the unreachable branch. *)
Lemma unknown_request_dialog_is_generic :
  scripts (emitted (@parse_request no_devices "bogus" (PDict []) tt))
  <> [not_implemented_dialog "bogus"].
Proof. vm_compute. discriminate. Qed.

(** C2 at a daemon that answers [get_device] with the string ["boom"]. *)
Lemma open_device_string_is_rendered_witness :
  @_open_device (answering (PStr "boom")) (PDict [("uid", PInt 0)]) tt
  = @Outcome (answering (PStr "boom")) _ (Ok tt)
      [backend (openrazer.get_device (PInt 0));
       run_js ("_open_device(" ++ quote ++ "boom" ++ quote ++ ");")]
      tt.
Proof.
  apply (@open_device_string_is_rendered (answering (PStr "boom"))
           (PDict [("uid", PInt 0)]) (PInt 0) "boom" tt tt); reflexivity.
Defined.

(** C3 at a daemon that answers [debug_matrix] with [False]. *)
Lemma debug_matrix_false_is_silent_witness :
  @_debug_matrix (answering (PBool false)) matrix_payload tt
  = @Outcome (answering (PBool false)) _ (Ok tt) [backend (openrazer.debug_matrix (PInt 0) (PInt 2) (PInt 3))] tt.
Proof.
  apply (@debug_matrix_false_is_silent (answering (PBool false)) matrix_payload
           (PInt 0) (PInt 2) (PInt 3) (PInt 2) (PInt 3) tt tt).
  - apply matrix_payload_fields.
  - reflexivity.
Defined.

(** C4 at [set_device_state] with a daemon that raises. *)
Lemma parse_request_catches_handler_exceptions_witness :
  @parse_request unreachable "set_device_state" state_payload tt
  = @Outcome unreachable _ (Ok PNone)
      [dbg_stdout "Processing request 'wave' for device 0 in backend 'openrazer'..."
                  dbg.action (Some 1);
       backend (openrazer.set_device_state (PInt 0) (PStr "wave") (PStr "main")
                  (PList [PStr "#00FF00"]) (PList [PInt 1]));
       dbg_stdout "Failed to execute request: set_device_state with data: {'uid': '0', 'backend': 'openrazer', 'backend_request': 'wave', 'zone': 'main', 'colour_hex': ['#00FF00'], 'params': [1]}"
                  dbg.error None;
       dbg_stdout "DBusException: daemon is gone" dbg.error None;
       run_js "open_dialog(`$error_generic_title`, `$error_generic_text<br><br><code>DBusException: daemon is gone</code>`, 'serious', [['OK', '']], '40em', '80em')"]
      tt.
Proof.
  destruct (@parse_request_catches_handler_exceptions unreachable "set_device_state"
              _set_device_state state_payload tt eq_refl) as [_ [Hraise _]].
  exact (proj1 (Hraise (Raised "DBusException" "daemon is gone") eq_refl)).
Defined.

(** C5 at brightness 50 with a two-zone keyboard and an unplugged mouse. *)
Lemma apply_to_all_brightness_witness :
  emitted (@_apply_to_all two_devices (apply_payload (PStr "brightness") (PInt 50)) tt)
  = [backend openrazer.get_device_list;
     backend (openrazer.set_device_state (PInt 0) (PStr "brightness") (PStr "main") PNone
                (PList [PInt 50]));
     backend (openrazer.set_device_state (PInt 0) (PStr "brightness") (PStr "logo") PNone
                (PList [PInt 50]))].
Proof.
  destruct (@apply_to_all_brightness two_devices
              (apply_payload (PStr "brightness") (PInt 50)) (PInt 50) [keyboard; mouse] tt tt
              eq_refl eq_refl eq_refl eq_refl
              (two_devices_never_raises openrazer.is_set_device_state))
    as [_ [Hemitted _]].
  exact Hemitted.
Defined.



(** C7 at a daemon that answers [False]. *)
Lemma set_device_state_false_is_bad_request_witness :
  @_set_device_state (answering (PBool false)) state_payload tt
  = @Outcome (answering (PBool false)) _ (Ok tt)
      [dbg_stdout "Processing request 'wave' for device 0 in backend 'openrazer'..."
                  dbg.action (Some 1);
       backend (openrazer.set_device_state (PInt 0) (PStr "wave") (PStr "main")
                  (PList [PStr "#00FF00"]) (PList [PInt 1]));
       dbg_stdout "Invalid request." dbg.warning None;
       run_js "open_dialog(`$error_bad_request_title`, `$error_bad_request_text`, 'warning', [['OK', '']], '40em', '80em')"]
      tt.
Proof.
  apply (@set_device_state_false_is_bad_request (answering (PBool false)) state_payload
           (PInt 0) (PStr "openrazer") (PStr "wave") (PStr "main")
           (PList [PStr "#00FF00"]) (PList [PInt 1]) tt tt).
  - apply state_payload_fields.
  - reflexivity.
Defined.

(** C8 at a daemon that answers with a message of two lines: the dialog shows
    them joined by [<br>]. *)
Lemma set_device_state_string_is_serious_dialog_witness :
  scripts (emitted (@_set_device_state (answering (PStr two_lines)) state_payload tt))
  = ["open_dialog(`$error_backend_title`, `$error_backend_text<pre>Traceback:<br>daemon died</pre>`, 'serious', [['OK', '']], '40em', '80em')"].
Proof.
  destruct (@set_device_state_string_is_serious_dialog (answering (PStr two_lines))
              state_payload (PInt 0) (PStr "openrazer") (PStr "wave") (PStr "main")
              (PList [PStr "#00FF00"]) (PList [PInt 1]) tt tt two_lines
              (state_payload_fields _) eq_refl) as [Hrun _].
  rewrite Hrun. reflexivity.
Defined.

(** C8 as stated fails on that message: the only script handed to the UI does
    not contain the two-line string. *)
Lemma set_device_state_string_counterexample :
  has_newline two_lines = true
  /\ existsb (contains two_lines)
       (scripts (emitted (@_set_device_state (answering (PStr two_lines)) state_payload tt)))
     = false.
Proof. split; vm_compute; reflexivity. Qed.

(** C9 at the type ["speed"]: silent with the keyboard and the mouse, the
    generic dialog when the daemon is not running. *)
Lemma apply_to_all_unknown_type_witness :
  @parse_request two_devices "apply_to_all" (apply_payload (PStr "speed") (PInt 3)) tt
  = @Outcome two_devices _ (Ok PNone) [backend openrazer.get_device_list] tt
  /\ exists e,
       @parse_request Cases.not_running "apply_to_all"
         (apply_payload (PStr "speed") (PInt 3)) tt
       = @Outcome Cases.not_running _ (Ok PNone)
           [backend openrazer.get_device_list;
            dbg_stdout "Failed to execute request: apply_to_all with data: {'type': 'speed', 'value': 3}"
                       dbg.error None;
            dbg_stdout (Sample.get_exception_as_string e) dbg.error None;
            run_js (@generic_dialog Cases.not_running (Sample.get_exception_as_string e))]
           tt.
Proof.
  split.
  - destruct (@apply_to_all_unknown_type two_devices
                (apply_payload (PStr "speed") (PInt 3)) (PStr "speed") (PInt 3)
                (PList [keyboard; mouse]) tt tt eq_refl eq_refl) as [_ [Hsilent _]].
    + simpl. intuition discriminate.
    + reflexivity.
    + exact (proj2 (Hsilent eq_refl)).
  - destruct (@apply_to_all_unknown_type Cases.not_running
                (apply_payload (PStr "speed") (PInt 3)) (PStr "speed") (PInt 3)
                (PInt (-1)) tt tt eq_refl eq_refl) as [_ [_ Hfails]].
    + simpl. intuition discriminate.
    + reflexivity.
    + destruct (Hfails eq_refl) as [e [_ Hrouter]]. exists e. exact Hrouter.
Defined.

(** C9 as stated fails twice at the type ["speed"]: with the keyboard and the
    mouse the handler does make a backend call, the fetch of the list; with a
    daemon that is not running, whose list is -1, the router raises the
    generic error dialog. *)
Lemma apply_to_all_unknown_type_counterexample :
  backend_calls
    (emitted (@_apply_to_all two_devices (apply_payload (PStr "speed") (PInt 3)) tt))
  = [openrazer.get_device_list]
  /\ scripts
       (emitted (@parse_request Cases.not_running "apply_to_all"
                   (apply_payload (PStr "speed") (PInt 3)) tt))
     = ["open_dialog(`$error_generic_title`, `$error_generic_text<br><br><code>TypeError</code>`, 'serious', [['OK', '']], '40em', '80em')"].
Proof. split; reflexivity. Qed.

(** C10 at daemons that answer with the integers 0 and 1. *)
Lemma set_device_state_compares_by_equality_witness :
  log_lines (emitted (@_set_device_state (answering (PInt 0)) state_payload tt))
  = ["Processing request 'wave' for device 0 in backend 'openrazer'..."; "Invalid request."]
  /\ log_lines (emitted (@_set_device_state (answering (PInt 1)) state_payload tt))
     = ["Processing request 'wave' for device 0 in backend 'openrazer'...";
        "Successfully executed request"].
Proof.
  split.
  - destruct (@set_device_state_compares_by_equality (answering (PInt 0)) state_payload
                (PInt 0) (PStr "openrazer") (PStr "wave") (PStr "main")
                (PList [PStr "#00FF00"]) (PList [PInt 1]) (PInt 0) tt tt
                (state_payload_fields _) eq_refl) as [Hzero _].
    rewrite (Hzero (or_introl eq_refl)). reflexivity.
  - destruct (@set_device_state_compares_by_equality (answering (PInt 1)) state_payload
                (PInt 0) (PStr "openrazer") (PStr "wave") (PStr "main")
                (PList [PStr "#00FF00"]) (PList [PInt 1]) (PInt 1) tt tt
                (state_payload_fields _) eq_refl) as [_ Hone].
    rewrite (Hone (or_introl eq_refl)). reflexivity.
Defined.

End Examples.

(** ** Further properties of the router and the handlers *)

Section Accounting.

Context {env : Environment}.

Lemma bind_lift_Raise (A B : Type) (e : exn) (k : A -> M B) (d : daemon) :
  bind (lift (Raise e)) k d = Outcome (Raise e) [] d.
Proof. reflexivity. Qed.

Lemma bind_openrazer_Raise (B : Type) (c : openrazer.call) (k : pyval -> M B)
    (d d' : daemon) (e : exn) :
  openrazer_run c d = (Raise e, d') ->
  bind (openrazer c) k d = Outcome (Raise e) [backend c] d'.
Proof. intros H. unfold bind, openrazer. rewrite H. reflexivity. Qed.

Lemma scripts_app (xs ys : list event) : scripts (xs ++ ys) = scripts xs ++ scripts ys.
Proof. unfold scripts. apply flat_map_app. Qed.

Lemma backend_calls_app (xs ys : list event) :
  backend_calls (xs ++ ys) = backend_calls xs ++ backend_calls ys.
Proof. unfold backend_calls. apply flat_map_app. Qed.

(** The classification of [_set_device_state] returns, leaves the daemon
    alone and hands at most one script to the UI. *)
Lemma set_device_state_result_account (request : pyval) (d : daemon) :
  returned (set_device_state_result request d) = Ok tt
  /\ final (set_device_state_result request d) = d
  /\ backend_calls (emitted (set_device_state_result request d)) = []
  /\ (length (scripts (emitted (set_device_state_result request d))) <= 1)%nat.
Proof.
  unfold set_device_state_result.
  destruct request as [|[]|z|s|items|entries]; cbn [py_eq_const type_is_str Bool.eqb];
    repeat match goal with
           | |- context [if ?b then _ else _] => destruct b
           end;
    repeat split; cbn; lia.
Qed.

Lemma debug_matrix_result_account (row column request : pyval) (d : daemon) :
  returned (debug_matrix_result row column request d) = Ok tt
  /\ final (debug_matrix_result row column request d) = d
  /\ backend_calls (emitted (debug_matrix_result row column request d)) = []
  /\ (length (scripts (emitted (debug_matrix_result row column request d))) <= 1)%nat.
Proof.
  unfold debug_matrix_result.
  destruct request as [|[]|z|s|items|entries]; cbn [py_eq_const type_is_str Bool.eqb];
    repeat match goal with
           | |- context [if ?b then _ else _] => destruct b
           end;
    repeat split; cbn; lia.
Qed.

End Accounting.

(** Splits a handler into the cases of its built-in operations and of the
    backend's answers. *)
Ltac cases_of_run :=
  repeat first
    [ rewrite bind_lift_Ok
    | rewrite bind_lift_Raise
    | rewrite bind_ret
    | rewrite bind_emit
    | match goal with
      | |- context [bind (lift ?r) _ _] => destruct r eqn:?
      end
    | match goal with
      | |- context [bind (openrazer ?c) _ ?d] =>
          let H := fresh "Hrun" in
          destruct (openrazer_run c d) as [[?|?] ?] eqn:H;
          [ rewrite (bind_openrazer _ _ _ _ _ _ H)
          | rewrite (bind_openrazer_Raise _ _ _ _ _ _ H) ]
      end ];
  cbv beta.

Section OnlyBackend.

Context {env : Environment}.

Lemma for_each_only_backend (body : pyval -> M unit) (xs : list pyval) :
  (forall x d, forallb is_backend_event (emitted (body x d)) = true) ->
  forall d, forallb is_backend_event (emitted (for_each xs body d)) = true.
Proof.
  intros Hbody. induction xs as [|x rest IH]; intros d.
  - reflexivity.
  - simpl. unfold bind. destruct (returned (body x d)); cbn [emitted].
    + rewrite forallb_app, Hbody, IH. reflexivity.
    + apply Hbody.
Qed.

Lemma apply_to_zone_only_backend (request_type request_value device zone : pyval)
    (d : daemon) :
  forallb is_backend_event
    (emitted (apply_to_zone request_type request_value device zone d)) = true.
Proof.
  unfold apply_to_zone.
  destruct (py_eq_const request_type (KStr "effect"));
    [|destruct (py_eq_const request_type (KStr "brightness"));
      [|destruct (py_eq_const request_type (KStr "colour"))]];
    cases_of_run; reflexivity.
Qed.

Lemma apply_to_device_only_backend (request_type request_value device : pyval)
    (d : daemon) :
  forallb is_backend_event
    (emitted (apply_to_device request_type request_value device d)) = true.
Proof.
  unfold apply_to_device.
  destruct (py_getitem device (PStr "available")) as [available|e];
    [rewrite bind_lift_Ok | reflexivity].
  destruct (py_eq_const available (KBool false)); [reflexivity|].
  destruct (py_getitem device (PStr "zones")) as [zones|e];
    [rewrite bind_lift_Ok | reflexivity].
  destruct (py_iter zones) as [zs|e]; [rewrite bind_lift_Ok | reflexivity].
  apply for_each_only_backend. intros zone d'. apply apply_to_zone_only_backend.
Qed.

Lemma only_backend_no_script (evs : list event) :
  forallb is_backend_event evs = true -> scripts evs = [].
Proof.
  induction evs as [|[] rest IH]; simpl; intros H; try discriminate; auto.
Qed.

(** The handler emits nothing but backend calls. *)
Lemma apply_to_all_emits_backend_only (data : pyval) (d : daemon) :
  forallb is_backend_event (emitted (_apply_to_all data d)) = true.
Proof.
  unfold _apply_to_all.
  destruct (py_getitem data (PStr "type")) as [request_type|e];
    [rewrite bind_lift_Ok | reflexivity].
  destruct (py_getitem data (PStr "value")) as [request_value|e];
    [rewrite bind_lift_Ok | reflexivity].
  destruct (openrazer_run openrazer.get_device_list d) as [[devices|e] d1] eqn:Hrun;
    [rewrite (bind_openrazer _ _ _ _ _ _ Hrun)
    | rewrite (bind_openrazer_Raise _ _ _ _ _ _ Hrun); reflexivity].
  cbn [emitted forallb is_backend_event andb].
  destruct (py_iter devices) as [devs|e]; [rewrite bind_lift_Ok | reflexivity].
  apply for_each_only_backend. intros device d'. apply apply_to_device_only_backend.
Qed.

End OnlyBackend.

Section OneScript.

Context {env : Environment}.

(** Per handler: at most one script goes to the UI, none when the handler
    raises, and at most one call reaches the backend. *)
Lemma open_device_account (data : pyval) (d : daemon) :
  (length (scripts (emitted (_open_device data d))) <= 1)%nat
  /\ (forall e, returned (_open_device data d) = Raise e ->
      scripts (emitted (_open_device data d)) = [])
  /\ (length (backend_calls (emitted (_open_device data d))) <= 1)%nat.
Proof.
  unfold _open_device. cases_of_run.
  all: repeat match goal with
           | |- context [if ?b then _ else _] => destruct b
           end.
  all: cbn; repeat split; try lia; intros; (discriminate || reflexivity).
Qed.

Lemma update_device_list_account (data : pyval) (d : daemon) :
  (length (scripts (emitted (_update_device_list data d))) <= 1)%nat
  /\ (forall e, returned (_update_device_list data d) = Raise e ->
      scripts (emitted (_update_device_list data d)) = [])
  /\ (length (backend_calls (emitted (_update_device_list data d))) <= 1)%nat.
Proof.
  unfold _update_device_list. cases_of_run.
  all: cbn; repeat split; try lia; intros; (discriminate || reflexivity).
Qed.

Lemma troubleshoot_account (data : pyval) (d : daemon) :
  (length (scripts (emitted (_troubleshoot_openrazer data d))) <= 1)%nat
  /\ (forall e, returned (_troubleshoot_openrazer data d) = Raise e ->
      scripts (emitted (_troubleshoot_openrazer data d)) = [])
  /\ (length (backend_calls (emitted (_troubleshoot_openrazer data d))) <= 1)%nat.
Proof.
  unfold _troubleshoot_openrazer. rewrite try_except_run. unfold stdout.
  cases_of_run.
  all: cbn; repeat split; try lia; intros; (discriminate || reflexivity).
Qed.

Lemma open_help_account (data : pyval) (d : daemon) :
  (length (scripts (emitted (_open_help data d))) <= 1)%nat
  /\ (forall e, returned (_open_help data d) = Raise e ->
      scripts (emitted (_open_help data d)) = [])
  /\ (length (backend_calls (emitted (_open_help data d))) <= 1)%nat.
Proof. cbn. repeat split; try lia; intros; discriminate. Qed.

Lemma set_device_state_account (data : pyval) (d : daemon) :
  (length (scripts (emitted (_set_device_state data d))) <= 1)%nat
  /\ (forall e, returned (_set_device_state data d) = Raise e ->
      scripts (emitted (_set_device_state data d)) = [])
  /\ (length (backend_calls (emitted (_set_device_state data d))) <= 1)%nat.
Proof.
  unfold _set_device_state, stdout. cases_of_run.
  all: try (cbn; repeat split; try lia; intros; (discriminate || reflexivity)).
  match goal with
  | |- context [set_device_state_result ?r ?d'] =>
      destruct (set_device_state_result_account r d') as [Hr [_ [Hb Hs]]]
  end.
  cbn [emitted returned].
  match goal with
  | |- context [?a :: ?b :: emitted ?o] =>
      change (a :: b :: emitted o) with ([a; b] ++ emitted o)
  end.
  rewrite scripts_app, backend_calls_app, Hr, Hb.
  repeat split; [exact Hs | intros; discriminate | cbn; lia].
Qed.

Lemma debug_matrix_account (data : pyval) (d : daemon) :
  (length (scripts (emitted (_debug_matrix data d))) <= 1)%nat
  /\ (forall e, returned (_debug_matrix data d) = Raise e ->
      scripts (emitted (_debug_matrix data d)) = [])
  /\ (length (backend_calls (emitted (_debug_matrix data d))) <= 1)%nat.
Proof.
  unfold _debug_matrix. cases_of_run.
  all: try (cbn; repeat split; try lia; intros; (discriminate || reflexivity)).
  match goal with
  | |- context [debug_matrix_result ?row ?column ?r ?d'] =>
      destruct (debug_matrix_result_account row column r d') as [Hr [_ [Hb Hs]]]
  end.
  cbn [emitted returned].
  match goal with
  | |- context [?a :: emitted ?o] =>
      change (a :: emitted o) with ([a] ++ emitted o)
  end.
  rewrite scripts_app, backend_calls_app, Hr, Hb.
  repeat split; [exact Hs | intros; discriminate | cbn; lia].
Qed.

Lemma apply_to_all_account (data : pyval) (d : daemon) :
  scripts (emitted (_apply_to_all data d)) = [].
Proof. apply only_backend_no_script, apply_to_all_emits_backend_only. Qed.

End OneScript.

Section RouterAccounting.

Context {env : Environment}.

Lemma handler_get_In (request : string) (handler : pyval -> M unit)
    (table : list (string * (pyval -> M unit))) :
  handler_get request table = Some handler -> In (request, handler) table.
Proof.
  induction table as [|[name h] rest IH]; simpl; intros H.
  - discriminate.
  - destruct (String.eqb_spec name request) as [E|_].
    + left. injection H as <-. rewrite E. reflexivity.
    + right. apply IH. exact H.
Qed.

(** The scripts and the backend calls of a routed request, from those of the
    call of the handler. *)
Lemma parse_request_scripts (request : string) (data : pyval) (d : daemon) :
  scripts (emitted (parse_request request data d))
  = match returned (call_handler requests request data d) with
    | Ok _ => scripts (emitted (call_handler requests request data d))
    | Raise e =>
        scripts (emitted (call_handler requests request data d))
          ++ [generic_dialog (get_exception_as_string e)]
    end.
Proof.
  rewrite parse_request_run. cbv zeta.
  destruct (returned (call_handler requests request data d)); cbn [emitted].
  - reflexivity.
  - rewrite !scripts_app. reflexivity.
Qed.

Lemma parse_request_backend_calls (request : string) (data : pyval) (d : daemon) :
  backend_calls (emitted (parse_request request data d))
  = backend_calls (emitted (call_handler requests request data d)).
Proof.
  rewrite parse_request_run. cbv zeta.
  destruct (returned (call_handler requests request data d)); cbn [emitted].
  - reflexivity.
  - rewrite !backend_calls_app. cbn. rewrite app_nil_r. reflexivity.
Qed.

(** The account of every handler of the table, [_apply_to_all] apart for the
    backend calls. *)
Lemma call_handler_account (request : string) (data : pyval) (d : daemon) :
  (length (scripts (emitted (call_handler requests request data d))) <= 1)%nat
  /\ (forall e, returned (call_handler requests request data d) = Raise e ->
      scripts (emitted (call_handler requests request data d)) = [])
  /\ (request <> "apply_to_all" ->
      (length (backend_calls (emitted (call_handler requests request data d))) <= 1)%nat).
Proof.
  unfold call_handler.
  destruct (handler_get request requests) as [handler|] eqn:E.
  - apply handler_get_In in E. unfold requests in E. simpl in E.
    destruct E as [E|[E|[E|[E|[E|[E|[E|[]]]]]]]]; injection E as <- <-.
    + destruct (update_device_list_account data d) as [H1 [H2 H3]]. auto.
    + destruct (open_device_account data d) as [H1 [H2 H3]]. auto.
    + rewrite (apply_to_all_account data d). repeat split; auto. intros H. contradiction.
    + destruct (set_device_state_account data d) as [H1 [H2 H3]]. auto.
    + destruct (debug_matrix_account data d) as [H1 [H2 H3]]. auto.
    + destruct (open_help_account data d) as [H1 [H2 H3]]. auto.
    + destruct (troubleshoot_account data d) as [H1 [H2 H3]]. auto.
  - cbn. repeat split; auto.
Qed.

(** X1.  For every request name, known or not, every payload and every
    behaviour of the daemon, [parse_request] returns [None]: the [False] of
    its first [except] is never returned and no exception leaves it.  It adds
    no backend call to those of the handler and leaves the daemon as the
    handler left it. *)
Theorem parse_request_always_returns_None (request : string) (data : pyval) (d : daemon) :
  returned (parse_request request data d) = Ok PNone
  /\ final (parse_request request data d) = final (call_handler requests request data d)
  /\ backend_calls (emitted (parse_request request data d))
     = backend_calls (emitted (call_handler requests request data d)).
Proof.
  split; [|split].
  - rewrite parse_request_run. cbv zeta.
    destruct (returned (call_handler requests request data d)); reflexivity.
  - rewrite parse_request_run. cbv zeta.
    destruct (returned (call_handler requests request data d)); reflexivity.
  - apply parse_request_backend_calls.
Qed.

(** X2.  Whatever the request, the payload and the daemon, one call of
    [parse_request] hands at most one script to the web view: either the one
    UI call of the handler or one error dialog, never both. *)
Theorem parse_request_at_most_one_script (request : string) (data : pyval) (d : daemon) :
  (length (scripts (emitted (parse_request request data d))) <= 1)%nat.
Proof.
  rewrite parse_request_scripts.
  destruct (call_handler_account request data d) as [Hle [Hraise _]].
  destruct (returned (call_handler requests request data d)) as [a|e].
  - exact Hle.
  - rewrite (Hraise e eq_refl). simpl. lia.
Qed.

(** X3.  A request other than ["apply_to_all"] reaches the backend at most
    once: nothing is retried, whatever the backend answers or raises. *)
Theorem parse_request_at_most_one_backend_call
    (request : string) (data : pyval) (d : daemon) :
  request <> "apply_to_all" ->
  (length (backend_calls (emitted (parse_request request data d))) <= 1)%nat.
Proof.
  intros Hother. rewrite parse_request_backend_calls.
  destruct (call_handler_account request data d) as [_ [_ Hcalls]].
  apply Hcalls. exact Hother.
Qed.

(** X4.  [_apply_to_all] itself only calls the backend: it writes no log line
    and hands nothing to the UI, so what the state and colour calls return is
    never reported.  The only script a routed ["apply_to_all"] can produce is
    the generic dialog for an exception that escaped the handler. *)
Theorem apply_to_all_reports_nothing (data : pyval) (d : daemon) :
  forallb is_backend_event (emitted (_apply_to_all data d)) = true
  /\ scripts (emitted (parse_request "apply_to_all" data d))
     = match returned (_apply_to_all data d) with
       | Ok _ => []
       | Raise e => [generic_dialog (get_exception_as_string e)]
       end.
Proof.
  split.
  - apply apply_to_all_emits_backend_only.
  - rewrite parse_request_scripts.
    change (call_handler requests "apply_to_all" data d) with (_apply_to_all data d).
    rewrite (apply_to_all_account data d).
    destruct (returned (_apply_to_all data d)); reflexivity.
Qed.

(** X5.  Every entry of the request table is reachable under its own name:
    the names are distinct, so no handler is shadowed by an earlier one. *)
Theorem requests_dispatch (request : string) (handler : pyval -> M unit)
    (data : pyval) (d : daemon) :
  In (request, handler) requests ->
  call_handler requests request data d = handler data d.
Proof.
  unfold requests. simpl.
  intros [E|[E|[E|[E|[E|[E|[E|[]]]]]]]]; injection E as <- <-; reflexivity.
Qed.

End RouterAccounting.

Section Troubleshoot.

Context {env : Environment}.

(** X6.  [_troubleshoot_openrazer] catches whatever its backend call raises:
    it then writes the "encountered an exception" line and raises its own
    troubleshooting dialog, and the router adds nothing, so the generic
    dialog never appears for this request.  When the call answers, the
    results go to [_show_troubleshoot_results] between the two log lines.
    The payload is ignored. *)
Theorem troubleshoot_openrazer_outcomes (data : pyval) (d d' : daemon) :
  (forall results,
      openrazer_run openrazer.troubleshoot d = (Ok results, d') ->
      parse_request "troubleshoot_openrazer" data d
      = Outcome (Ok PNone)
          [dbg_stdout "Running troubleshooter for OpenRazer..." dbg.warning (Some 1);
           backend openrazer.troubleshoot;
           run_js (run_function_js (PStr "_show_troubleshoot_results") results);
           dbg_stdout "Troubleshooting finished." dbg.success (Some 1)]
          d')
  /\ (forall e,
      openrazer_run openrazer.troubleshoot d = (Raise e, d') ->
      parse_request "troubleshoot_openrazer" data d
      = Outcome (Ok PNone)
          [dbg_stdout "Running troubleshooter for OpenRazer..." dbg.warning (Some 1);
           backend openrazer.troubleshoot;
           dbg_stdout "Troubleshooting encountered an exception." dbg.error (Some 1);
           run_js (open_dialog_js (LOCALES "troubleshoot")
                     (LOCALES "troubleshoot_cannot_run") "serious")]
          d').
Proof.
  split; intros answer Hrun; rewrite parse_request_run;
    change (call_handler requests "troubleshoot_openrazer" data d)
      with (_troubleshoot_openrazer data d);
    unfold _troubleshoot_openrazer; rewrite try_except_run; unfold stdout;
    rewrite bind_emit.
  - rewrite (bind_openrazer _ _ _ _ _ _ Hrun). reflexivity.
  - rewrite (bind_openrazer_Raise _ _ _ _ _ _ Hrun). reflexivity.
Qed.

(** X7.  [_update_device_list] pushes whatever [get_device_list] returned to
    the view as [CACHE_DEVICES] before it reads the payload: with a callback
    it then calls it with the default data [{}]; without one the lookup
    fails after the push, and the router reports it with the generic
    dialog. *)
Theorem update_device_list_pushes_first (data devices : pyval) (d d' : daemon) :
  openrazer_run openrazer.get_device_list d = (Ok devices, d') ->
  (forall callback,
      py_getitem data (PStr "callback") = Ok callback ->
      parse_request "update_device_list" data d
      = Outcome (Ok PNone)
          [backend openrazer.get_device_list;
           send_view_variable "CACHE_DEVICES" devices;
           run_js (py_str callback ++ "(" ++ json_dumps (PDict []) ++ ");")]
          d')
  /\ (forall e,
      py_getitem data (PStr "callback") = Raise e ->
      parse_request "update_device_list" data d
      = Outcome (Ok PNone)
          [backend openrazer.get_device_list;
           send_view_variable "CACHE_DEVICES" devices;
           dbg_stdout ("Failed to execute request: " ++ "update_device_list"
                         ++ " with data: " ++ py_str data) dbg.error None;
           dbg_stdout (get_exception_as_string e) dbg.error None;
           run_js (generic_dialog (get_exception_as_string e))]
          d').
Proof.
  intros Hrun.
  split; intros x Hx; rewrite parse_request_run;
    change (call_handler requests "update_device_list" data d)
      with (_update_device_list data d);
    unfold _update_device_list;
    rewrite (bind_openrazer _ _ _ _ _ _ Hrun), bind_emit, Hx; reflexivity.
Qed.

End Troubleshoot.

Section Payload.

Context {env : Environment}.

(** X8.  When the payload of [set_device_state] does not carry all six fields
    with a [uid] that [int] accepts, the handler raises before it has logged
    or called anything: the backend never sees an incomplete request. *)
Theorem set_device_state_bad_payload (data : pyval) (d : daemon) :
  (forall uid backend_ backend_request zone colour_hex params,
      ~ state_request_of data uid backend_ backend_request zone colour_hex params) ->
  (exists e, _set_device_state data d = Outcome (Raise e) [] d)
  /\ backend_calls (emitted (parse_request "set_device_state" data d)) = [].
Proof.
  intros Hbad.
  assert (H : exists e, _set_device_state data d = Outcome (Raise e) [] d).
  { unfold _set_device_state, stdout. cases_of_run; try (eexists; reflexivity).
    all: exfalso; eapply Hbad; unfold state_request_of; eauto 10. }
  split; [exact H|].
  destruct H as [e He]. rewrite parse_request_backend_calls.
  change (call_handler requests "set_device_state" data d) with (_set_device_state data d).
  rewrite He. reflexivity.
Qed.

(** X9.  The two remaining rows of the classification in [_set_device_state]:
    [None] gives the "Device not found in backend" warning line and the
    "device gone" warning dialog; an answer that is a list, a dictionary or
    an integer other than 0 and 1 gives nothing at all, not even the success
    line. *)
Theorem set_device_state_none_and_unclassified
    (data uid backend_ backend_request zone colour_hex params request : pyval)
    (d d' : daemon) :
  state_request_of data uid backend_ backend_request zone colour_hex params ->
  openrazer_run (openrazer.set_device_state uid backend_request zone colour_hex params) d
    = (Ok request, d') ->
  (request = PNone ->
   _set_device_state data d
   = Outcome (Ok tt)
       [dbg_stdout (processing_message uid backend_ backend_request) dbg.action (Some 1);
        backend (openrazer.set_device_state uid backend_request zone colour_hex params);
        dbg_stdout "Device not found in backend" dbg.warning None;
        run_js device_gone_dialog]
       d')
  /\ ((exists items, request = PList items)
      \/ (exists entries, request = PDict entries)
      \/ (exists z, request = PInt z /\ z <> 0 /\ z <> 1) ->
      _set_device_state data d
      = Outcome (Ok tt)
          [dbg_stdout (processing_message uid backend_ backend_request) dbg.action (Some 1);
           backend (openrazer.set_device_state uid backend_request zone colour_hex params)]
          d').
Proof.
  intros Hdata Hrun.
  rewrite (set_device_state_run _ _ _ _ _ _ _ _ _ _ Hdata Hrun).
  split.
  - intros ->. reflexivity.
  - intros [[items ->] | [[entries ->] | [z [-> [H0 H1]]]]]; try reflexivity.
    unfold set_device_state_result. cbn [py_eq_const type_is_str Z_of_bool].
    apply Z.eqb_neq in H0, H1. rewrite H0, H1. reflexivity.
Qed.

(** X10.  When the payload of [debug_matrix] lacks a field, has a position
    with fewer than two items, or holds a [uid], row or column that [int]
    rejects, the handler raises before it has called the backend. *)
Theorem debug_matrix_bad_payload (data : pyval) (d : daemon) :
  (forall uid row column irow icolumn,
      ~ matrix_request_of data uid row column irow icolumn) ->
  (exists e, _debug_matrix data d = Outcome (Raise e) [] d)
  /\ backend_calls (emitted (parse_request "debug_matrix" data d)) = [].
Proof.
  intros Hbad.
  assert (H : exists e, _debug_matrix data d = Outcome (Raise e) [] d).
  { unfold _debug_matrix. cases_of_run; try (eexists; reflexivity).
    all: exfalso; eapply Hbad; unfold matrix_request_of; eauto 12. }
  split; [exact H|].
  destruct H as [e He]. rewrite parse_request_backend_calls.
  change (call_handler requests "debug_matrix" data d) with (_debug_matrix data d).
  rewrite He. reflexivity.
Qed.

End Payload.

Section ApplyToAllMore.

Context {env : Environment}.

(** X11.  With type ["colour"], [apply_to_all] fetches the device list and
    then issues exactly one [set_device_colours] call per zone of every
    device whose [available] flag is true, in list order, each with the
    one-element colour list [[value]]; a device whose flag is false receives
    no call, and no [set_device_state] call is made. *)
Theorem apply_to_all_colour
    (data value : pyval) (devices : list pyval) (d d1 : daemon) :
  py_getitem data (PStr "type") = Ok (PStr "colour") ->
  py_getitem data (PStr "value") = Ok value ->
  openrazer_run openrazer.get_device_list d = (Ok (PList devices), d1) ->
  forallb well_formed_device devices = true ->
  never_raises is_set_device_colours ->
  returned (_apply_to_all data d) = Ok tt
  /\ emitted (_apply_to_all data d)
     = backend openrazer.get_device_list
       :: map backend
            (calls_for_devices
               (fun uid zone => openrazer.set_device_colours uid zone (PList [value]))
               devices).
Proof.
  intros Htype Hvalue Hlist Hwf Hsafe.
  destruct (apply_to_all_fan_out data _ _ devices d d1
              (fun uid zone =>
                 [backend (openrazer.set_device_colours uid zone (PList [value]))])
              Htype Hvalue Hlist Hwf) as [Hr He].
  - intros device uid zone d' Hu. unfold apply_to_zone.
    cbn [py_eq_const String.eqb Ascii.eqb Bool.eqb].
    rewrite (device_uid_inv _ _ Hu), bind_lift_Ok.
    destruct (Hsafe (openrazer.set_device_colours uid zone (PList [value])) d' eq_refl)
      as [v [d'' Hrun]].
    rewrite (bind_openrazer _ _ _ _ _ _ Hrun). split; reflexivity.
  - rewrite Hr, He.
    rewrite <- (fan_out_calls
                  (fun uid zone => openrazer.set_device_colours uid zone (PList [value]))).
    split; reflexivity.
Qed.

(** X12.  When [get_device_list] answers with one of the failure values that
    [initalise_app] tests for, the integer -1 (any integer) or a non-empty
    error string, or with [None], [apply_to_all] fails with a [TypeError]
    right after the fetch, before any state or colour call, and the router
    reports it with the generic dialog. *)
Theorem apply_to_all_without_device_list
    (data request_type request_value devices : pyval) (d d1 : daemon) :
  py_getitem data (PStr "type") = Ok request_type ->
  py_getitem data (PStr "value") = Ok request_value ->
  openrazer_run openrazer.get_device_list d = (Ok devices, d1) ->
  (exists n, devices = PInt n)
  \/ devices = PNone
  \/ (exists c rest, devices = PStr (String c rest)) ->
  _apply_to_all data d = Outcome (Raise TypeError) [backend openrazer.get_device_list] d1
  /\ parse_request "apply_to_all" data d
     = Outcome (Ok PNone)
         [backend openrazer.get_device_list;
          dbg_stdout ("Failed to execute request: " ++ "apply_to_all" ++ " with data: "
                        ++ py_str data) dbg.error None;
          dbg_stdout (get_exception_as_string TypeError) dbg.error None;
          run_js (generic_dialog (get_exception_as_string TypeError))]
         d1.
Proof.
  intros Htype Hvalue Hrun Hbad.
  assert (H : _apply_to_all data d
              = Outcome (Raise TypeError) [backend openrazer.get_device_list] d1).
  { unfold _apply_to_all.
    rewrite Htype, bind_lift_Ok, Hvalue, bind_lift_Ok, (bind_openrazer _ _ _ _ _ _ Hrun).
    destruct Hbad as [[n ->] | [-> | [c [rest ->]]]]; reflexivity. }
  split; [exact H|].
  rewrite parse_request_run.
  change (call_handler requests "apply_to_all" data d) with (_apply_to_all data d).
  rewrite H. reflexivity.
Qed.

End ApplyToAllMore.

(** ** The dialog script and the button icons *)

Lemma has_newline_append (a b : string) :
  has_newline (a ++ b) = has_newline a || has_newline b.
Proof.
  induction a as [|c a IH]; simpl.
  - reflexivity.
  - rewrite IH. apply orb_assoc.
Qed.

Lemma replace_newlines_clean (s : string) : has_newline (replace_newlines s) = false.
Proof.
  induction s as [|c s IH]; simpl.
  - reflexivity.
  - destruct (Ascii.eqb c LF) eqn:E; simpl.
    + exact IH.
    + rewrite E, IH. reflexivity.
Qed.

(** X13.  The script [_internal_error] builds has a line feed only if the
    title or the style has one: every line feed of the reason, a multi-line
    traceback for instance, has become [<br>]. *)
Theorem internal_error_script_newlines {env : Environment}
    (title reason style : string) (d : daemon) :
  exists script,
    _internal_error title reason style d = Outcome (Ok tt) [run_js script] d
    /\ has_newline script = has_newline title || has_newline style.
Proof.
  exists (open_dialog_js title reason style). split; [reflexivity|].
  unfold open_dialog_js.
  rewrite !has_newline_append, replace_newlines_clean. cbn.
  destruct (has_newline title), (has_newline style); reflexivity.
Qed.

Lemma has_char_append (c : ascii) (a b : string) :
  has_char c (a ++ b) = has_char c a || has_char c b.
Proof.
  induction a as [|x a IH]; simpl.
  - reflexivity.
  - rewrite IH. apply orb_assoc.
Qed.

Lemma split_slash_plain (s : string) :
  has_char slash s = false -> split_slash s = [s].
Proof.
  induction s as [|c s IH]; simpl; intros H.
  - reflexivity.
  - apply orb_false_iff in H. destruct H as [Hc Hs].
    rewrite Hc, (IH Hs). reflexivity.
Qed.

Lemma split_slash_parts (s : string) :
  Forall (fun part => has_char slash part = false) (split_slash s).
Proof.
  induction s as [|c s IH]; simpl.
  - repeat constructor.
  - destruct (Ascii.eqb c slash) eqn:E.
    + constructor; [reflexivity | exact IH].
    + destruct (split_slash s) as [|first more].
      * repeat constructor. simpl. rewrite E. reflexivity.
      * inversion IH as [|? ? Hfirst Hmore]; subst.
        constructor; [simpl; rewrite E, Hfirst; reflexivity | exact Hmore].
Qed.

Lemma split_slash_nonempty (s : string) : split_slash s <> [].
Proof.
  destruct s as [|c s]; simpl; [discriminate|].
  destruct (Ascii.eqb c slash); [discriminate|].
  destruct (split_slash s); discriminate.
Qed.

(** The parts after a slash are the parts of what follows it. *)
Lemma split_slash_after (a b : string) :
  exists init, split_slash (a ++ String slash b) = init ++ split_slash b /\ init <> [].
Proof.
  induction a as [|c a [init [IH Hinit]]]; simpl.
  - exists [EmptyString]. split; [reflexivity | discriminate].
  - destruct (Ascii.eqb c slash).
    + exists (EmptyString :: init). rewrite IH. split; [reflexivity | discriminate].
    + rewrite IH. destruct init as [|first more]; [contradiction|].
      exists (String c first :: more). split; [reflexivity | discriminate].
Qed.

Lemma last_app_nonempty (A : Type) (xs ys : list A) (default : A) :
  ys <> [] -> last (xs ++ ys) default = last ys default.
Proof.
  intros H. induction xs as [|x xs IH]; [reflexivity|].
  simpl. destruct (xs ++ ys) eqn:E; [|exact IH].
  apply app_eq_nil in E. destruct E as [_ E]. contradiction.
Qed.

Lemma remove_svg_keeps_absent (c : ascii) (s : string) :
  has_char c s = false -> forall skip, has_char c (remove_svg skip s) = false.
Proof.
  induction s as [|x s IH]; intros H skip.
  - destruct skip; reflexivity.
  - simpl in H. apply orb_false_iff in H. destruct H as [Hx Hs].
    destruct skip as [|k]; cbn [remove_svg].
    + destruct (String.prefix ".svg" (String x s)).
      * apply IH. exact Hs.
      * simpl. rewrite Hx. apply IH. exact Hs.
    + apply IH. exact Hs.
Qed.

Lemma remove_svg_suffix (stem : string) :
  has_char "."%char stem = false -> remove_svg 0 (stem ++ ".svg") = stem.
Proof.
  induction stem as [|c stem IH]; intros H.
  - reflexivity.
  - simpl in H. apply orb_false_iff in H. destruct H as [Hc Hs].
    change ((String c stem ++ ".svg")%string) with (String c (stem ++ ".svg")).
    cbn [remove_svg String.prefix].
    destruct (Ascii.ascii_dec "."%char c) as [E|_].
    + subst c. discriminate.
    + rewrite (IH Hs). reflexivity.
Qed.

(** X14.  The name of an icon is the base name of its file without the
    [.svg] suffix: for a path [dir/stem.svg] whose stem has neither a slash
    nor a dot, [svg_name] gives [stem], whatever the directory. *)
Theorem svg_name_of_path (dir stem : string) :
  has_char slash stem = false ->
  has_char "."%char stem = false ->
  svg_name (dir ++ "/" ++ stem ++ ".svg") = stem.
Proof.
  intros Hslash Hdot. unfold svg_name.
  change ((dir ++ "/" ++ stem ++ ".svg")%string)
    with ((dir ++ String slash (stem ++ ".svg"))%string).
  destruct (split_slash_after dir (stem ++ ".svg")) as [init [-> _]].
  assert (Hbase : has_char slash (stem ++ ".svg") = false).
  { rewrite has_char_append, Hslash. reflexivity. }
  rewrite (split_slash_plain _ Hbase), last_app_nonempty by discriminate.
  apply remove_svg_suffix. exact Hdot.
Qed.

Lemma last_In (A : Type) (xs : list A) (default : A) :
  xs <> [] -> In (last xs default) xs.
Proof.
  induction xs as [|x xs IH]; intros H; [contradiction|].
  destruct xs as [|y ys]; [left; reflexivity|].
  right. apply IH. discriminate.
Qed.

(** An icon name never has a slash. *)
Lemma svg_name_no_slash (path : string) : has_char slash (svg_name path) = false.
Proof.
  unfold svg_name. apply remove_svg_keeps_absent.
  assert (H := split_slash_parts path). rewrite Forall_forall in H.
  apply H, last_In, split_slash_nonempty.
Qed.

Lemma dict_set_In (k : string) (v : pyval) (entries : list (string * pyval))
    (k' : string) (v' : pyval) :
  In (k', v') (dict_set k v entries) -> (k', v') = (k, v) \/ In (k', v') entries.
Proof.
  induction entries as [|[k0 v0] rest IH]; simpl.
  - intros [H|[]]. left. symmetry. exact H.
  - destruct (String.eqb_spec k0 k) as [E|_]; simpl.
    + intros [H|H]; [left; rewrite <- H, E; reflexivity | right; right; exact H].
    + intros [H|H]; [right; left; exact H|].
      destruct (IH H) as [H'|H']; [left; exact H' | right; right; exact H'].
Qed.

Lemma dict_set_keys (k : string) (v : pyval) (entries : list (string * pyval)) :
  NoDup (map fst entries) ->
  NoDup (map fst (dict_set k v entries))
  /\ (forall k', In k' (map fst (dict_set k v entries)) -> k' = k \/ In k' (map fst entries)).
Proof.
  induction entries as [|[k0 v0] rest IH]; simpl; intros Hnd.
  - split; [repeat constructor; auto | intros k' [H|[]]; auto].
  - inversion Hnd as [|? ? Hnot Hrest]; subst.
    destruct (String.eqb_spec k0 k) as [E|Hne]; simpl.
    + split; [exact Hnd | intros k' H; right; exact H].
    + destruct (IH Hrest) as [IHnd IHin]. split.
      * constructor; [|exact IHnd].
        intros Hin. destruct (IHin _ Hin) as [H|H]; [apply Hne; exact H | contradiction].
      * intros k' [H|H]; [right; left; exact H|].
        destruct (IHin _ H) as [H'|H']; auto.
Qed.

Lemma dict_get_set_same (k : string) (v : pyval) (entries : list (string * pyval)) :
  dict_get k (dict_set k v entries) = Some v.
Proof.
  induction entries as [|[k0 v0] rest IH]; simpl.
  - rewrite String.eqb_refl. reflexivity.
  - destruct (String.eqb k0 k) eqn:E; simpl; rewrite E; [reflexivity | exact IH].
Qed.

Lemma dict_get_set_other (k k' : string) (v : pyval) (entries : list (string * pyval)) :
  k' <> k -> dict_get k (dict_set k' v entries) = dict_get k entries.
Proof.
  intros Hne. induction entries as [|[k0 v0] rest IH]; simpl.
  - destruct (String.eqb_spec k' k); [contradiction | reflexivity].
  - destruct (String.eqb_spec k0 k') as [E|_]; simpl.
    + subst k0. destruct (String.eqb_spec k' k); [contradiction | reflexivity].
    + destruct (String.eqb k0 k); [reflexivity | exact IH].
Qed.

(** What the loop keeps true of the dictionary it builds. *)
Lemma collect_svgs_invariant (read_file : string -> result string) (icons : list string)
    (P : string -> pyval -> Prop) :
  (forall path text, In path icons -> read_file path = Ok text ->
                     P (svg_name path) (PStr text)) ->
  forall output result_,
    (forall k v, In (k, v) output -> P k v) ->
    NoDup (map fst output) ->
    collect_svgs read_file icons output = Ok result_ ->
    (forall k v, In (k, v) result_ -> P k v) /\ NoDup (map fst result_).
Proof.
  induction icons as [|path rest IH]; intros Hnew output result_ Hout Hnd Hrun.
  - simpl in Hrun. injection Hrun as <-. split; assumption.
  - simpl in Hrun. destruct (read_file path) as [text|e] eqn:Hread; [|discriminate].
    apply (IH (fun p t Hin => Hnew p t (or_intror Hin))
              (dict_set (svg_name path) (PStr text) output)); [| |exact Hrun].
    + intros k v Hin. destruct (dict_set_In _ _ _ _ _ Hin) as [E|Hold].
      * injection E as -> ->. apply Hnew; [left; reflexivity | exact Hread].
      * apply Hout. exact Hold.
    + apply dict_set_keys. exact Hnd.
Qed.

(** X15.  When [_get_button_svg_list] returns, it returns a dictionary whose
    keys are pairwise distinct and have no slash, and every value is the text
    of one of the matched files whose name is the key. *)
Theorem button_svg_list_entries (data_dir_path : string) (glob : string -> list string)
    (read_file : string -> result string) (output : list (string * pyval)) :
  _get_button_svg_list data_dir_path glob read_file = Ok (PDict output) ->
  NoDup (map fst output)
  /\ (forall name value, In (name, value) output ->
      has_char slash name = false
      /\ exists path text,
           In path (glob (data_dir_path ++ "/ui/img/button/*.svg")%string)
           /\ svg_name path = name
           /\ read_file path = Ok text
           /\ value = PStr text).
Proof.
  unfold _get_button_svg_list. cbv zeta.
  set (icons := glob (data_dir_path ++ "/ui/img/button/*.svg")%string).
  destruct (collect_svgs read_file icons []) as [result_|e] eqn:Hrun; [|discriminate].
  intros H. injection H as <-.
  destruct (collect_svgs_invariant read_file icons
              (fun name value =>
                 has_char slash name = false
                 /\ exists path text,
                      In path icons /\ svg_name path = name
                      /\ read_file path = Ok text /\ value = PStr text)
              (fun path text Hin Hread =>
                 conj (svg_name_no_slash path)
                      (ex_intro _ path (ex_intro _ text
                         (conj Hin (conj eq_refl (conj Hread eq_refl))))))
              [] result_ (fun k v (H : In (k, v) []) => match H with end)
              (NoDup_nil _) Hrun) as [Hentries Hnd].
  split; [exact Hnd | exact Hentries].
Qed.

Lemma collect_svgs_app (read_file : string -> result string) (a b : list string)
    (output : list (string * pyval)) :
  collect_svgs read_file (a ++ b) output
  = match collect_svgs read_file a output with
    | Ok middle => collect_svgs read_file b middle
    | Raise e => Raise e
    end.
Proof.
  revert output. induction a as [|path a IH]; intros output; simpl.
  - reflexivity.
  - destruct (read_file path); [apply IH | reflexivity].
Qed.

Lemma collect_svgs_keeps (read_file : string -> result string) (icons : list string)
    (name : string) :
  (forall path, In path icons -> svg_name path <> name) ->
  forall output result_,
    collect_svgs read_file icons output = Ok result_ ->
    dict_get name result_ = dict_get name output.
Proof.
  induction icons as [|path rest IH]; intros Hother output result_ Hrun; simpl in Hrun.
  - injection Hrun as <-. reflexivity.
  - destruct (read_file path) as [text|e]; [|discriminate].
    rewrite (IH (fun p Hin => Hother p (or_intror Hin)) _ _ Hrun).
    apply dict_get_set_other. apply Hother. left. reflexivity.
Qed.

(** X16.  When several matched files give the same name, the text of the last
    one is kept: a path with no later path of the same name is found in the
    returned dictionary under its name, with the text of its own file. *)
Theorem button_svg_list_last_wins (data_dir_path : string) (glob : string -> list string)
    (read_file : string -> result string) (output : list (string * pyval))
    (before after : list string) (path : string) :
  glob (data_dir_path ++ "/ui/img/button/*.svg")%string = before ++ path :: after ->
  (forall later, In later after -> svg_name later <> svg_name path) ->
  _get_button_svg_list data_dir_path glob read_file = Ok (PDict output) ->
  exists text,
    read_file path = Ok text
    /\ py_getitem (PDict output) (PStr (svg_name path)) = Ok (PStr text).
Proof.
  intros Hglob Hlast. unfold _get_button_svg_list. cbv zeta. rewrite Hglob.
  rewrite collect_svgs_app.
  destruct (collect_svgs read_file before []) as [middle|e]; [|discriminate].
  simpl. destruct (read_file path) as [text|e]; [|discriminate].
  destruct (collect_svgs read_file after _) as [result_|e] eqn:Hrun; [|discriminate].
  intros H. injection H as <-. exists text. split; [reflexivity|].
  rewrite (collect_svgs_keeps _ _ _ Hlast _ _ Hrun), dict_get_set_same. reflexivity.
Qed.

(** X17.  [_get_button_svg_list] returns a dictionary exactly when every
    matched file can be read: one file that [open] rejects makes the whole
    call fail, and no partial dictionary is returned. *)
Theorem button_svg_list_needs_every_file (data_dir_path : string)
    (glob : string -> list string) (read_file : string -> result string) :
  (exists output, _get_button_svg_list data_dir_path glob read_file = Ok (PDict output))
  <-> (forall path, In path (glob (data_dir_path ++ "/ui/img/button/*.svg")%string) ->
       exists text, read_file path = Ok text).
Proof.
  unfold _get_button_svg_list. cbv zeta.
  generalize (glob (data_dir_path ++ "/ui/img/button/*.svg")%string) as icons.
  intros icons. generalize (@nil (string * pyval)) as start.
  induction icons as [|path rest IH]; intros start; simpl.
  - split; [intros _ path [] | intros _; exists start; reflexivity].
  - destruct (read_file path) as [text|e] eqn:Hread.
    + rewrite IH. split.
      * intros H p [<-|Hin]; [exists text; exact Hread | apply H; exact Hin].
      * intros H p Hin. apply H. right. exact Hin.
    + split.
      * intros [output H]. discriminate.
      * intros H. destruct (H path (or_introl eq_refl)) as [text Htext]. congruence.
Qed.

(** ** Start-up *)

Section StartupProperties.

Context {env : Environment} {application : Application}.

(** The classification of the device list always returns and leaves the
    daemon alone. *)
Lemma device_list_result_returns (self : controller) (devices : pyval) (d : daemon) :
  exists self',
    device_list_result self devices d
    = Outcome (Ok self') (emitted (device_list_result self devices d)) d.
Proof.
  unfold device_list_result.
  destruct (py_eq_const devices (KInt (-1))); [|destruct (type_is_str devices)];
    eexists; reflexivity.
Qed.

(** How the outcomes of two steps compose. *)
Lemma bind_outcome (A B : Type) (m : M A) (k : A -> M B) (d d' d'' : daemon)
    (a : A) (r : result B) (evs evs' : list event) :
  m d = Outcome (Ok a) evs d' ->
  k a d' = Outcome r evs' d'' ->
  bind m k d = Outcome r (evs ++ evs') d''.
Proof. intros Hm Hk. unfold bind. rewrite Hm. cbn. rewrite Hk. reflexivity. Qed.

Lemma bind_outcome_Raise (A B : Type) (m : M A) (k : A -> M B) (d d' : daemon)
    (e : exn) (evs : list event) :
  m d = Outcome (Raise e) evs d' ->
  bind m k d = Outcome (Raise e) evs d'.
Proof. intros Hm. unfold bind. rewrite Hm. reflexivity. Qed.

Lemma openrazer_outcome (c : openrazer.call) (d d' : daemon) (r : result pyval) :
  openrazer_run c d = (r, d') -> openrazer c d = Outcome r [backend c] d'.
Proof. intros H. unfold openrazer. rewrite H. reflexivity. Qed.

(** [initalise_app] on a run where everything loads: the events up to the
    push of the device list, those of its classification, the version
    warning, and the window. *)
Lemma initalise_app_run
    (self : controller) (version versions colours svgs devices save_version : pyval)
    (v : string) (newer : bool) (shown : list event) (d d1 d2 : daemon) :
  startup_loads version v colours svgs ->
  openrazer_run openrazer.get_device_list d = (Ok devices, d1) ->
  preferences_checked save_version newer ->
  window_show_window d1 = Outcome (Ok tt) shown d2 ->
  let self1 := {| version := version; versions := versions; backends := backends self |} in
  exists self2,
    returned (device_list_result self1 devices d1) = Ok self2
    /\ initalise_app self version versions d
       = Outcome (Ok (PBool true, self2))
           (view_events v colours svgs devices
              ++ emitted (device_list_result self1 devices d1)
              ++ version_warning version save_version newer
              ++ window_events shown)
           d2.
Proof.
  intros [-> [Hcolours Hsvgs]] Hrun [pref_data [Hload [Hsave Hgt]]] Hwindow self1.
  destruct (device_list_result_returns self1 devices d1) as [self2 Hresult].
  exists self2. split; [rewrite Hresult; reflexivity|].
  assert (Hwarn : (if newer
                   then run_function (PStr "_warn_save_data_version")
                          (PDict [("app_version", PStr v);
                                  ("pref_version", pref_version);
                                  ("save_version", save_version)])
                   else ret tt) d1
                  = Outcome (Ok tt) (version_warning (PStr v) save_version newer) d1).
  { destruct newer; reflexivity. }
  unfold initalise_app. fold self1. cbn [py_concat].
  rewrite Hcolours, Hsvgs, Hload.
  eapply eq_trans.
  { do 9 (eapply bind_outcome; [reflexivity | cbv beta]).
    eapply bind_outcome; [apply (openrazer_outcome _ _ _ _ Hrun) | cbv beta].
    eapply bind_outcome; [reflexivity | cbv beta].
    eapply bind_outcome; [exact Hresult | cbv beta].
    eapply bind_outcome; [reflexivity | cbv beta].
    rewrite Hsave.
    eapply bind_outcome; [reflexivity | cbv beta].
    rewrite Hgt.
    eapply bind_outcome; [reflexivity | cbv beta].
    eapply bind_outcome; [apply Hwarn | cbv beta].
    eapply bind_outcome; [reflexivity | cbv beta].
    eapply bind_outcome; [exact Hwindow | cbv beta].
    eapply bind_outcome; [reflexivity | cbv beta].
    reflexivity. }
  reflexivity.
Qed.

(** X18.  Start-up goes on whatever the daemon answers.  On a run where the
    colours, the icons and the preferences load, [initalise_app] pushes the
    device list as [CACHE_DEVICES] first and then:
    for -1 it only logs "Daemon not running";
    for a string it logs it and raises the one "not ready" dialog;
    for anything else it logs "Ready", pushes [OPENRAZER_READY] and sets
    [backends["openrazer"]].
    In all three cases it then shows the window, selects the devices tab and
    returns [True]. *)
Theorem initalise_app_classifies_device_list
    (self : controller) (version versions colours svgs devices save_version : pyval)
    (v : string) (newer : bool) (shown : list event) (d d1 d2 : daemon) :
  startup_loads version v colours svgs ->
  openrazer_run openrazer.get_device_list d = (Ok devices, d1) ->
  preferences_checked save_version newer ->
  window_show_window d1 = Outcome (Ok tt) shown d2 ->
  let self1 := {| version := version; versions := versions; backends := backends self |} in
  (py_eq_const devices (KInt (-1)) = true ->
   initalise_app self version versions d
   = Outcome (Ok (PBool true, self1))
       (view_events v colours svgs devices
          ++ [dbg_stdout "OpenRazer: Daemon not running" dbg.error None]
          ++ version_warning version save_version newer
          ++ window_events shown)
       d2)
  /\ (forall message, devices = PStr message ->
      initalise_app self version versions d
      = Outcome (Ok (PBool true, self1))
          (view_events v colours svgs devices
             ++ [dbg_stdout ("OpenRazer: Error! Exception: " ++ message) dbg.error None;
                 run_js (open_dialog_js (LOCALES "error_not_ready_title")
                           (LOCALES "error_not_ready_text" ++ "<code>" ++ message
                              ++ "</code>")
                           "serious")]
             ++ version_warning version save_version newer
             ++ window_events shown)
          d2)
  /\ (py_eq_const devices (KInt (-1)) = false ->
      type_is_str devices = false ->
      initalise_app self version versions d
      = Outcome (Ok (PBool true,
                     {| version := version;
                        versions := versions;
                        backends := dict_set "openrazer" (PBool true) (backends self) |}))
          (view_events v colours svgs devices
             ++ [dbg_stdout "OpenRazer: Ready" dbg.success (Some 1);
                 send_view_variable "OPENRAZER_READY" (PBool true)]
             ++ version_warning version save_version newer
             ++ window_events shown)
          d2).
Proof.
  intros Hloads Hrun Hprefs Hwindow self1.
  destruct (initalise_app_run self version versions colours svgs devices save_version
              v newer shown d d1 d2 Hloads Hrun Hprefs Hwindow) as [self2 [Hself Heq]].
  fold self1 in Hself, Heq. rewrite Heq. clear Heq.
  unfold device_list_result in *.
  split; [|split].
  - intros Hdown. rewrite Hdown in *. cbn in Hself. injection Hself as <-. reflexivity.
  - intros message ->. cbn in Hself. injection Hself as <-. reflexivity.
  - intros Hup Hnostr. rewrite Hup, Hnostr in *. cbn in Hself.
    injection Hself as <-. reflexivity.
Qed.

(** X19.  When the preferences cannot be loaded, have no [config_version] or
    hold one that does not compare with [pref.version], the exception leaves
    [initalise_app] and the window is never shown, although the view has been
    built and the device list pushed and classified. *)
Theorem initalise_app_preferences_failure
    (self : controller) (version versions colours svgs devices : pyval)
    (v : string) (e : exn) (d d1 : daemon) :
  startup_loads version v colours svgs ->
  openrazer_run openrazer.get_device_list d = (Ok devices, d1) ->
  preferences_fail e ->
  let self1 := {| version := version; versions := versions; backends := backends self |} in
  initalise_app self version versions d
  = Outcome (Raise e)
      (view_events v colours svgs devices
         ++ emitted (device_list_result self1 devices d1))
      d1.
Proof.
  intros [-> [Hcolours Hsvgs]] Hrun Hfail self1.
  destruct (device_list_result_returns self1 devices d1) as [self2 Hresult].
  unfold initalise_app. fold self1. cbn [py_concat].
  rewrite Hcolours, Hsvgs.
  destruct Hfail as [Hload | [pref_data [Hload [Hsave | [save_version [Hsave Hgt]]]]]];
    rewrite Hload; (eapply eq_trans; [|shelve]);
    do 9 (eapply bind_outcome; [reflexivity | cbv beta]);
    (eapply bind_outcome; [apply (openrazer_outcome _ _ _ _ Hrun) | cbv beta]);
    (eapply bind_outcome; [reflexivity | cbv beta]);
    (eapply bind_outcome; [exact Hresult | cbv beta]).
  - apply bind_outcome_Raise. reflexivity.
  - eapply bind_outcome; [reflexivity | cbv beta].
    rewrite Hsave. apply bind_outcome_Raise. reflexivity.
  - eapply bind_outcome; [reflexivity | cbv beta].
    rewrite Hsave. eapply bind_outcome; [reflexivity | cbv beta].
    rewrite Hgt. apply bind_outcome_Raise. reflexivity.
  Unshelve.
  all: cbn [List.app]; rewrite ?app_nil_r; reflexivity.
Qed.

End StartupProperties.

(** ** The further properties at concrete inputs *)

Section MoreExamples.

Import Sample Cases.

(** X3 at a state request. *)
Lemma parse_request_at_most_one_backend_call_witness :
  (length (backend_calls
             (emitted (@parse_request (answering (PBool true)) "set_device_state"
                         state_payload tt))) <= 1)%nat.
Proof.
  apply (@parse_request_at_most_one_backend_call (answering (PBool true))
           "set_device_state" state_payload tt).
  discriminate.
Defined.

(** X5 at the entry of ["open_help"]. *)
Lemma requests_dispatch_witness :
  @call_handler no_devices requests "open_help" (PDict []) tt
  = @_open_help no_devices (PDict []) tt.
Proof.
  apply (@requests_dispatch no_devices "open_help" _open_help (PDict []) tt).
  simpl. do 5 right. left. reflexivity.
Defined.

(** X6 at a daemon whose troubleshooter raises. *)
Lemma troubleshoot_openrazer_outcomes_witness :
  @parse_request broken_troubleshooter "troubleshoot_openrazer" (PDict []) tt
  = @Outcome broken_troubleshooter _ (Ok PNone)
      [dbg_stdout "Running troubleshooter for OpenRazer..." dbg.warning (Some 1);
       backend openrazer.troubleshoot;
       dbg_stdout "Troubleshooting encountered an exception." dbg.error (Some 1);
       run_js "open_dialog(`$troubleshoot`, `$troubleshoot_cannot_run`, 'serious', [['OK', '']], '40em', '80em')"]
      tt.
Proof.
  exact (proj2 (@troubleshoot_openrazer_outcomes broken_troubleshooter (PDict []) tt tt)
           (Raised "DBusException" "daemon is gone") eq_refl).
Defined.

(** X7 at a payload without a callback. *)
Lemma update_device_list_pushes_first_witness :
  @parse_request two_devices "update_device_list" (PDict []) tt
  = @Outcome two_devices _ (Ok PNone)
      [backend openrazer.get_device_list;
       send_view_variable "CACHE_DEVICES" (PList [keyboard; mouse]);
       dbg_stdout "Failed to execute request: update_device_list with data: {}"
                  dbg.error None;
       dbg_stdout "KeyError: 'callback'" dbg.error None;
       run_js "open_dialog(`$error_generic_title`, `$error_generic_text<br><br><code>KeyError: 'callback'</code>`, 'serious', [['OK', '']], '40em', '80em')"]
      tt.
Proof.
  exact (proj2 (@update_device_list_pushes_first two_devices (PDict [])
                  (PList [keyboard; mouse]) tt tt eq_refl)
           (KeyError (PStr "callback")) eq_refl).
Defined.

(** X8 at a payload whose [uid] is not a number. *)
Lemma set_device_state_bad_payload_witness :
  backend_calls
    (emitted (@parse_request (answering (PBool true)) "set_device_state"
                (PDict [("uid", PStr "left"); ("backend", PStr "openrazer")]) tt))
  = [].
Proof.
  apply (@set_device_state_bad_payload (answering (PBool true))
           (PDict [("uid", PStr "left"); ("backend", PStr "openrazer")]) tt).
  intros uid backend_ backend_request zone colour_hex params [[raw [Hraw Hint]] _].
  injection Hraw as <-. discriminate Hint.
Defined.

(** X9 at a daemon that answers [None]. *)
Lemma set_device_state_none_and_unclassified_witness :
  @_set_device_state (answering PNone) state_payload tt
  = @Outcome (answering PNone) _ (Ok tt)
      [dbg_stdout "Processing request 'wave' for device 0 in backend 'openrazer'..."
                  dbg.action (Some 1);
       backend (openrazer.set_device_state (PInt 0) (PStr "wave") (PStr "main")
                  (PList [PStr "#00FF00"]) (PList [PInt 1]));
       dbg_stdout "Device not found in backend" dbg.warning None;
       run_js "open_dialog(`$error_device_gone_title`, `$error_device_gone_text`, 'warning', [['OK', '']], '40em', '80em')"]
      tt.
Proof.
  exact (proj1 (@set_device_state_none_and_unclassified (answering PNone) state_payload
                  (PInt 0) (PStr "openrazer") (PStr "wave") (PStr "main")
                  (PList [PStr "#00FF00"]) (PList [PInt 1]) PNone tt tt
                  (state_payload_fields _) eq_refl)
           eq_refl).
Defined.

(** X10 at a position with one item. *)
Lemma debug_matrix_bad_payload_witness :
  backend_calls
    (emitted (@parse_request (answering (PBool true)) "debug_matrix"
                (PDict [("uid", PStr "0"); ("backend", PStr "openrazer");
                        ("position", PList [PInt 5])]) tt))
  = [].
Proof.
  apply (@debug_matrix_bad_payload (answering (PBool true))
           (PDict [("uid", PStr "0"); ("backend", PStr "openrazer");
                   ("position", PList [PInt 5])]) tt).
  intros uid row column irow icolumn [_ [_ [[position [Hp [_ Hcolumn]]] _]]].
  injection Hp as <-. discriminate Hcolumn.
Defined.

(** X11 at the colour [#FF0000] with the keyboard and the mouse. *)
Lemma apply_to_all_colour_witness :
  emitted (@_apply_to_all two_devices (apply_payload (PStr "colour") (PStr "#FF0000")) tt)
  = [backend openrazer.get_device_list;
     backend (openrazer.set_device_colours (PInt 0) (PStr "main") (PList [PStr "#FF0000"]));
     backend (openrazer.set_device_colours (PInt 0) (PStr "logo") (PList [PStr "#FF0000"]))].
Proof.
  exact (proj2 (@apply_to_all_colour two_devices
                  (apply_payload (PStr "colour") (PStr "#FF0000")) (PStr "#FF0000")
                  [keyboard; mouse] tt tt eq_refl eq_refl eq_refl eq_refl
                  (two_devices_never_raises is_set_device_colours))).
Defined.

(** X12 at a daemon that is not running. *)
Lemma apply_to_all_without_device_list_witness :
  @parse_request not_running "apply_to_all" (apply_payload (PStr "brightness") (PInt 50)) tt
  = @Outcome not_running _ (Ok PNone)
      [backend openrazer.get_device_list;
       dbg_stdout "Failed to execute request: apply_to_all with data: {'type': 'brightness', 'value': 50}"
                  dbg.error None;
       dbg_stdout "TypeError" dbg.error None;
       run_js "open_dialog(`$error_generic_title`, `$error_generic_text<br><br><code>TypeError</code>`, 'serious', [['OK', '']], '40em', '80em')"]
      tt.
Proof.
  exact (proj2 (@apply_to_all_without_device_list not_running
                  (apply_payload (PStr "brightness") (PInt 50))
                  (PStr "brightness") (PInt 50) (PInt (-1)) tt tt
                  eq_refl eq_refl eq_refl (or_introl (ex_intro _ (-1) eq_refl)))).
Defined.

(** X14 at the icon of the wave effect. *)
Lemma svg_name_of_path_witness :
  svg_name "/usr/share/polychromatic/ui/img/button/wave.svg" = "wave".
Proof.
  exact (svg_name_of_path "/usr/share/polychromatic/ui/img/button" "wave" eq_refl eq_refl).
Defined.

(** X15 at three icon files, two of them named [wave]. *)
Lemma button_svg_list_entries_witness :
  NoDup ["wave"; "dpi"].
Proof.
  exact (proj1 (button_svg_list_entries "/usr/share/polychromatic" (fun _ => icons)
                  icon_text
                  [("wave", PStr "<svg>/usr/share/polychromatic/ui/img/button/wave.svg.svg</svg>");
                   ("dpi", PStr "<svg>/usr/share/polychromatic/ui/img/button/dpi.svg</svg>")]
                  eq_refl)).
Defined.

(** X16 at the same files: the later [wave.svg.svg] is the one kept. *)
Lemma button_svg_list_last_wins_witness :
  exists text,
    icon_text "/usr/share/polychromatic/ui/img/button/wave.svg.svg" = Ok text
    /\ py_getitem
         (PDict [("wave", PStr "<svg>/usr/share/polychromatic/ui/img/button/wave.svg.svg</svg>");
                 ("dpi", PStr "<svg>/usr/share/polychromatic/ui/img/button/dpi.svg</svg>")])
         (PStr "wave")
       = Ok (PStr text).
Proof.
  apply (button_svg_list_last_wins "/usr/share/polychromatic" (fun _ => icons) icon_text
           [("wave", PStr "<svg>/usr/share/polychromatic/ui/img/button/wave.svg.svg</svg>");
            ("dpi", PStr "<svg>/usr/share/polychromatic/ui/img/button/dpi.svg</svg>")]
           ["/usr/share/polychromatic/ui/img/button/wave.svg";
            "/usr/share/polychromatic/ui/img/button/dpi.svg"]
           []
           "/usr/share/polychromatic/ui/img/button/wave.svg.svg").
  - reflexivity.
  - intros later [].
  - reflexivity.
Defined.

(** X20 at a position sent as strings: the backend gets the integers, the log
    shows the coordinates as sent. *)
Lemma debug_matrix_other_answers_witness :
  emitted (@_debug_matrix (answering (PBool true))
             (PDict [("uid", PStr "0"); ("backend", PStr "openrazer");
                     ("position", PList [PStr "2"; PStr "3"])]) tt)
  = [backend (openrazer.debug_matrix (PInt 0) (PInt 2) (PInt 3));
     dbg_stdout "OK: [2,3]" dbg.success (Some 1)].
Proof.
  refine (proj2 (proj2 (@debug_matrix_other_answers (answering (PBool true))
                          (PDict [("uid", PStr "0"); ("backend", PStr "openrazer");
                                  ("position", PList [PStr "2"; PStr "3"])])
                          (PInt 0) (PStr "2") (PStr "3") (PInt 2) (PInt 3) (PBool true)
                          tt tt _ eq_refl)) eq_refl).
  split; [exists (PStr "0"); split; reflexivity|].
  split; [exists (PStr "openrazer"); reflexivity|].
  split; [exists (PList [PStr "2"; PStr "3"]); repeat split; reflexivity|].
  split; reflexivity.
Defined.

(** X21 at a daemon that answers [None]. *)
Lemma open_device_none_and_data_witness :
  scripts (emitted (@_open_device (answering PNone) (PDict [("uid", PStr "0")]) tt))
  = ["open_device_overview({});"].
Proof.
  exact (proj1 (@open_device_none_and_data (answering PNone) (PDict [("uid", PStr "0")])
                  (PStr "0") PNone tt tt eq_refl eq_refl)
           eq_refl).
Defined.

(** X18 at a running daemon and preferences newer than the program: the view
    is told the daemon is ready, warned about the version, and the window is
    shown. *)
Lemma initalise_app_classifies_device_list_witness :
  @initalise_app two_devices (application two_devices 3) __init__ (PStr "0.6.0") PNone tt
  = @Outcome two_devices _
      (Ok (PBool true,
           {| version := PStr "0.6.0"; versions := PNone;
              backends := [("openrazer", PBool true)] |}))
      [dbg_stdout "Version 0.6.0" dbg.debug (Some 1);
       send_view_variable "LOCALES" (PDict [("title", PStr "Polychromatic")]);
       send_view_variable "COLOURS" (PDict [("green", PStr "#00FF00")]);
       send_view_variable "BUTTON_SVGS"
         (PDict [("wave", PStr "<svg>/usr/share/polychromatic/ui/img/button/wave.svg.svg</svg>");
                 ("dpi", PStr "<svg>/usr/share/polychromatic/ui/img/button/dpi.svg</svg>")]);
       run_js "build_view({});";
       dbg_stdout "OpenRazer: Getting device list..." dbg.action (Some 1);
       backend openrazer.get_device_list;
       send_view_variable "CACHE_DEVICES" (PList [keyboard; mouse]);
       dbg_stdout "OpenRazer: Ready" dbg.success (Some 1);
       send_view_variable "OPENRAZER_READY" (PBool true);
       run_js (@run_function_js two_devices (PStr "_warn_save_data_version")
                 (PDict [("app_version", PStr "0.6.0");
                         ("pref_version", PInt 3);
                         ("save_version", PInt 5)]));
       dbg_stdout "Application Ready. Showing window." dbg.success (Some 1);
       dbg_stdout "show_window" dbg.debug None;
       run_js "_set_tab_devices({});"]
      tt.
Proof.
  refine (proj2 (proj2 (@initalise_app_classifies_device_list two_devices
                          (application two_devices 3) __init__ (PStr "0.6.0") PNone
                          (PDict [("green", PStr "#00FF00")])
                          (PDict [("wave", PStr "<svg>/usr/share/polychromatic/ui/img/button/wave.svg.svg</svg>");
                                  ("dpi", PStr "<svg>/usr/share/polychromatic/ui/img/button/dpi.svg</svg>")])
                          (PList [keyboard; mouse]) (PInt 5) "0.6.0" true
                          [dbg_stdout "show_window" dbg.debug None] tt tt tt
                          _ eq_refl _ eq_refl)) eq_refl eq_refl).
  - repeat split; reflexivity.
  - exists (PDict [("config_version", PInt 5)]). repeat split; reflexivity.
Defined.

(** X19 at preferences without a [config_version], with a daemon that
    answers with an error message: the dialog is raised, the window is not
    shown. *)
Lemma initalise_app_preferences_failure_witness :
  @initalise_app daemon_error (old_preferences daemon_error) __init__ (PStr "0.6.0") PNone tt
  = @Outcome daemon_error _ (Raise (KeyError (PStr "config_version")))
      [dbg_stdout "Version 0.6.0" dbg.debug (Some 1);
       send_view_variable "LOCALES" (PDict [("title", PStr "Polychromatic")]);
       send_view_variable "COLOURS" (PDict [("green", PStr "#00FF00")]);
       send_view_variable "BUTTON_SVGS"
         (PDict [("wave", PStr "<svg>/usr/share/polychromatic/ui/img/button/wave.svg.svg</svg>");
                 ("dpi", PStr "<svg>/usr/share/polychromatic/ui/img/button/dpi.svg</svg>")]);
       run_js "build_view({});";
       dbg_stdout "OpenRazer: Getting device list..." dbg.action (Some 1);
       backend openrazer.get_device_list;
       send_view_variable "CACHE_DEVICES" (PStr "no session bus");
       dbg_stdout "OpenRazer: Error! Exception: no session bus" dbg.error None;
       run_js "open_dialog(`$error_not_ready_title`, `$error_not_ready_text<code>no session bus</code>`, 'serious', [['OK', '']], '40em', '80em')"]
      tt.
Proof.
  refine (@initalise_app_preferences_failure daemon_error (old_preferences daemon_error)
            __init__ (PStr "0.6.0") PNone
            (PDict [("green", PStr "#00FF00")])
            (PDict [("wave", PStr "<svg>/usr/share/polychromatic/ui/img/button/wave.svg.svg</svg>");
                    ("dpi", PStr "<svg>/usr/share/polychromatic/ui/img/button/dpi.svg</svg>")])
            (PStr "no session bus") "0.6.0" (KeyError (PStr "config_version")) tt tt
            _ eq_refl _).
  - repeat split; reflexivity.
  - right. exists (PDict []). split; [reflexivity | left; reflexivity].
Defined.

End MoreExamples.
